(** * scrapylib.chunkexports: the chunked feed exporter

    A shallow embedding of [src/scrapylib/chunkexports.py] and the
    properties of its chunk rotation, its feed uri parameters and its
    configuration gate.

    The class [ChunkedFeedExporter] extends Scrapy's [FeedExporter] and
    reads a Scrapy [Settings] object; neither is part of the sources.
    Both are modelled below, in their own modules, as far as the exporter
    uses them. *)

From Stdlib Require Import ZArith Ascii String DecimalString.
From Stdlib Require Import DecimalN.
From stdpp Require Import base option list gmap strings.

Local Open Scope string_scope.
Local Open Scope Z_scope.

(** ** Python values and exceptions *)

(** The Python values that settings, uri parameters and item fields hold
    here: [None], integers and strings. *)
Inductive pyval : Type :=
| PNone
| PInt (z : Z)
| PStr (s : string).

Global Instance pyval_eq_dec : EqDecision pyval.
Proof. solve_decision. Defined.

(** The exceptions the modelled code can raise. *)
Inductive exn : Type :=
| NotConfigured
| KeyError
| TypeError
| ValueError
| AttributeError.

Global Instance exn_eq_dec : EqDecision exn.
Proof. solve_decision. Defined.

(** A call either returns a value or raises. *)
Inductive result (A : Type) : Type :=
| Ok (a : A)
| Raise (e : exn).
Arguments Ok {A} a.
Arguments Raise {A} e.

Global Instance result_ret : MRet result := fun A a => Ok a.
Global Instance result_bind : MBind result := fun A B f m =>
  match m with
  | Ok a => f a
  | Raise e => Raise e
  end.

Definition is_ok {A} (r : result A) : bool :=
  match r with
  | Ok _ => true
  | Raise _ => false
  end.

(** Python's truth value: [not value] is [negb (py_truthy value)]. *)
Definition py_truthy (v : pyval) : bool :=
  match v with
  | PNone => false
  | PInt z => negb (z =? 0)
  | PStr s => negb (String.eqb s "")
  end.

(** [n >= v] for an integer [n], with the ordering of Python 2 (the
    language of the sources): integers compare by value, [None] is below
    every value and every integer is below every string. *)
Definition py_int_ge (n : Z) (v : pyval) : bool :=
  match v with
  | PNone => true
  | PInt t => t <=? n
  | PStr _ => false
  end.

(** [str(v)]. *)
Definition py_str (v : pyval) : string :=
  match v with
  | PNone => "None"
  | PInt z => NilZero.string_of_int (Z.to_int z)
  | PStr s => s
  end.

(** ** Text helpers *)

Fixpoint replicate_char (n : nat) (c : ascii) : string :=
  match n with
  | O => ""
  | S n' => String c (replicate_char n' c)
  end.

(** Right-justify [s] in a field of [width] characters, filling with [c]. *)
Definition rjust (width : nat) (c : ascii) (s : string) : string :=
  replicate_char (width - String.length s) c +:+ s.

(** The text of [%d] applied to [z] with the [0] flag and a field width. *)
Definition render_int (zero : bool) (width : nat) (z : Z) : string :=
  let digits := NilZero.string_of_uint (N.to_uint (Z.abs_N z)) in
  let sign := if z <? 0 then "-" else "" in
  if zero
  then sign +:+ rjust (width - String.length sign) "0" digits
  else rjust width " " (sign +:+ digits).

Definition is_digit (c : ascii) : option nat :=
  let n := nat_of_ascii c in
  if (48 <=? n)%nat && (n <=? 57)%nat then Some (n - 48)%nat else None.

Definition lower_char (c : ascii) : ascii :=
  let n := nat_of_ascii c in
  if (65 <=? n)%nat && (n <=? 90)%nat then ascii_of_nat (n + 32) else c.

Fixpoint lower (s : string) : string :=
  match s with
  | EmptyString => EmptyString
  | String c s' => String (lower_char c) (lower s')
  end.

(** ** The clock *)

(** A [datetime] value as [datetime.utcnow()] returns it, to the second. *)
Record datetime : Type := {
  year : nat;
  month : nat;
  day : nat;
  hour : nat;
  minute : nat;
  second : nat
}.

Definition digits (width : nat) (n : nat) : string :=
  rjust width "0" (NilZero.string_of_uint (Nat.to_uint n)).

(** [strftime]: the directives [%Y %m %d %H %M %S] and [%%]; every other
    character, a directive outside this list included, is copied as it
    is. [pending] tells that the previous character was an unconsumed
    [%]. *)
Fixpoint strftime_go (now : datetime) (pending : bool) (fmt : string) : string :=
  match fmt with
  | EmptyString => if pending then "%" else ""
  | String c rest =>
    if pending then
      if Ascii.eqb c "Y" then digits 4 (year now) +:+ strftime_go now false rest
      else if Ascii.eqb c "m" then digits 2 (month now) +:+ strftime_go now false rest
      else if Ascii.eqb c "d" then digits 2 (day now) +:+ strftime_go now false rest
      else if Ascii.eqb c "H" then digits 2 (hour now) +:+ strftime_go now false rest
      else if Ascii.eqb c "M" then digits 2 (minute now) +:+ strftime_go now false rest
      else if Ascii.eqb c "S" then digits 2 (second now) +:+ strftime_go now false rest
      else if Ascii.eqb c "%" then String "%" (strftime_go now false rest)
      else String "%" (String c (strftime_go now false rest))
    else if Ascii.eqb c "%" then strftime_go now true rest
    else String c (strftime_go now false rest)
  end.

Definition strftime (now : datetime) (fmt : string) : string :=
  strftime_go now false fmt.

(** ** The [%] operator on a template and a mapping *)

(** [template % params] for the placeholders [%(key)d], [%(key)i] and
    [%(key)s], each with an optional [0] flag and field width, and [%%].
    A key may hold balanced parentheses. A placeholder without a key, and
    a flag or conversion outside this list, raise in the model. *)
Module Template.

(** Where the scan of the template stands. *)
Inductive mode : Type :=
| Text
| Percent
| Key (key : string) (depth : nat)
| Spec (v : pyval) (zero : bool) (width : option nat).

Definition convert (c : ascii) (v : pyval) (zero : bool) (width : nat)
  : result string :=
  if Ascii.eqb c "d" || Ascii.eqb c "i" then
    match v with
    | PInt z => Ok (render_int zero width z)
    | _ => Raise TypeError
    end
  else if Ascii.eqb c "s" then Ok (rjust width " " (py_str v))
  else Raise ValueError.

Fixpoint go (params : gmap string pyval) (m : mode) (out : string)
  (template : string) : result string :=
  match template with
  | EmptyString =>
    match m with
    | Text => Ok out
    | _ => Raise ValueError
    end
  | String c rest =>
    match m with
    | Text =>
      if Ascii.eqb c "%" then go params Percent out rest
      else go params Text (out +:+ String c "") rest
    | Percent =>
      if Ascii.eqb c "%" then go params Text (out +:+ "%") rest
      else if Ascii.eqb c "(" then go params (Key "" 0) out rest
      else Raise TypeError
    | Key key depth =>
      if Ascii.eqb c ")" then
        match depth with
        | O =>
          match params !! key with
          | Some v => go params (Spec v false None) out rest
          | None => Raise KeyError
          end
        | S depth' => go params (Key (key +:+ ")") depth') out rest
        end
      else if Ascii.eqb c "(" then go params (Key (key +:+ "(") (S depth)) out rest
      else go params (Key (key +:+ String c "") depth) out rest
    | Spec v zero width =>
      match is_digit c, width with
      | Some O, None => go params (Spec v true None) out rest
      | Some d, None => go params (Spec v zero (Some d)) out rest
      | Some d, Some w => go params (Spec v zero (Some (10 * w + d)%nat)) out rest
      | None, _ =>
        r ← convert c v zero (default O width);
        go params Text (out +:+ r) rest
      end
    end
  end.

Definition format (template : string) (params : gmap string pyval)
  : result string :=
  go params Text "" template.

End Template.

(** ** Settings objects *)

(** Modelled from the spec: the configuration object is an external
    collaborator (Scrapy's [Settings], imported by the sources and absent
    from them). A settings object maps a name to a value with the
    priority it was set at; [get] returns the default for a name that is
    absent or set to [None]; [set] replaces a value unless the name is
    already set at a higher priority. *)
Module Settings.

Record attribute : Type := {
  value : pyval;
  priority : Z
}.

Abbreviation t := (gmap string attribute).

(** [settings[name]] *)
Definition getitem (s : t) (name : string) : pyval :=
  match s !! name with
  | Some a => value a
  | None => PNone
  end.

(** [settings.get(name, default)] *)
Definition get (s : t) (name : string) (default : pyval) : pyval :=
  match getitem s name with
  | PNone => default
  | v => v
  end.

(** [settings.set(name, value, priority)] *)
Definition set (s : t) (name : string) (v : pyval) (prio : Z) : t :=
  match s !! name with
  | Some a =>
    if priority a <=? prio
    then <[name := {| value := v; priority := prio |}]> s
    else s
  | None => <[name := {| value := v; priority := prio |}]> s
  end.

(** The settings a test passes as a dict: every entry at the priority
    of a project setting. *)
Definition of_dict (d : list (string * pyval)) : t :=
  list_to_map (prod_map id (fun v => {| value := v; priority := 20 |}) <$> d).

End Settings.

(** ** The store of settings objects *)

(** Settings objects are mutable and passed by reference: the store holds
    them, a reference is an index into it. *)
Abbreviation loc := nat.
Abbreviation store := (list Settings.t).

(** A computation that reads and writes the store and may raise. *)
Definition M (A : Type) : Type := store -> store * result A.

Global Instance M_ret : MRet M := fun A a h => (h, Ok a).
Global Instance M_bind : MBind M := fun A B f m h =>
  match m h with
  | (h', Ok a) => f a h'
  | (h', Raise e) => (h', Raise e)
  end.

Definition raise {A} (e : exn) : M A := fun h => (h, Raise e).

(** [copy.deepcopy(settings)]: a new object with the same entries. *)
Definition deepcopy (settings : loc) : M loc := fun h =>
  match h !! settings with
  | Some s => ((h ++ [s])%list, Ok (length h))
  | None => (h, Raise AttributeError)
  end.

Definition settings_getitem (settings : loc) (name : string) : M pyval := fun h =>
  match h !! settings with
  | Some s => (h, Ok (Settings.getitem s name))
  | None => (h, Raise AttributeError)
  end.

Definition settings_get (settings : loc) (name : string) (default : pyval)
  : M pyval := fun h =>
  match h !! settings with
  | Some s => (h, Ok (Settings.get s name default))
  | None => (h, Raise AttributeError)
  end.

Definition settings_set (settings : loc) (name : string) (v : pyval) (prio : Z)
  : M unit := fun h =>
  match h !! settings with
  | Some s => (<[settings := Settings.set s name v prio]> h, Ok tt)
  | None => (h, Raise AttributeError)
  end.

(** ** The exporter object *)

(** A scraped item: its fields. *)
Abbreviation Item := (gmap string pyval).

(** The slot of the feed being written: [uri] and [itemcount] as the
    parent class keeps them, [exported] the items handed to the slot's
    item exporter in order, [uripar] the parameter mapping the uri was
    resolved with. *)
Record SpiderSlot : Type := {
  uri : string;
  itemcount : Z;
  exported : list Item;
  uripar : gmap string pyval
}.

(** The attributes of a [ChunkedFeedExporter]: those of the parent
    ([urifmt], [format], [slot]) and its own. [stored] is not an
    attribute: it lists the slots closed so far, oldest first, which is
    what the feed storage holds. *)
Record ChunkedFeedExporter : Type := {
  settings : loc;
  urifmt : pyval;
  format : string;
  _items_per_chunk : pyval;
  _chunk_number : Z;
  _timestamp_format : pyval;
  _scrapy_job : pyval;
  _scrapy_project : pyval;
  _scrapy_project_id : pyval;
  slot : option SpiderSlot;
  stored : list SpiderSlot
}.

Definition with_slot (self : ChunkedFeedExporter) (s : option SpiderSlot)
  : ChunkedFeedExporter :=
  {| settings := settings self; urifmt := urifmt self; format := format self;
     _items_per_chunk := _items_per_chunk self;
     _chunk_number := _chunk_number self;
     _timestamp_format := _timestamp_format self;
     _scrapy_job := _scrapy_job self; _scrapy_project := _scrapy_project self;
     _scrapy_project_id := _scrapy_project_id self;
     slot := s; stored := stored self |}.

Definition with_stored (self : ChunkedFeedExporter) (l : list SpiderSlot)
  : ChunkedFeedExporter :=
  {| settings := settings self; urifmt := urifmt self; format := format self;
     _items_per_chunk := _items_per_chunk self;
     _chunk_number := _chunk_number self;
     _timestamp_format := _timestamp_format self;
     _scrapy_job := _scrapy_job self; _scrapy_project := _scrapy_project self;
     _scrapy_project_id := _scrapy_project_id self;
     slot := slot self; stored := l |}.

Definition with_chunk_number (self : ChunkedFeedExporter) (n : Z)
  : ChunkedFeedExporter :=
  {| settings := settings self; urifmt := urifmt self; format := format self;
     _items_per_chunk := _items_per_chunk self;
     _chunk_number := n;
     _timestamp_format := _timestamp_format self;
     _scrapy_job := _scrapy_job self; _scrapy_project := _scrapy_project self;
     _scrapy_project_id := _scrapy_project_id self;
     slot := slot self; stored := stored self |}.

(** What the process and the installation provide: the environment
    variables, and which feed storages and item exporters are installed. *)
Record Host : Type := {
  environ : gmap string string;
  storage_supported : string -> bool;
  exporter_supported : string -> bool
}.

(** ** The methods of [ChunkedFeedExporter] that build the uri parameters *)

Definition DEFAULT_TIMESTAMP_FORMAT : string := "%Y-%m-%d-%H".

(** [get_uri_parameters(self, params, spider)]: the update of [params],
    with [now] the value of [datetime.utcnow()] at the call. *)
Definition get_uri_parameters (self : ChunkedFeedExporter) (now : datetime)
  (params : gmap string pyval) : gmap string pyval :=
  <["chunk_number" := PInt (_chunk_number self)]>
    (<["scrapy_job" := _scrapy_job self]>
      (<["scrapy_project_id" := _scrapy_project_id self]>
        (<["timestamp" := PStr (strftime now "%Y-%m-%d-%H")]> params))).

(** ** The parent class *)

(** Modelled from the spec: the parent class is the external sink
    (Scrapy's [FeedExporter], imported by the sources and absent from
    them). One sink is open at a time; opening resolves the address from
    the template and the parameter mapping and starts the item count at
    0; a write hands the record to the open sink and adds 1 to the count;
    closing finishes the sink, which then is among the stored ones.
    Storage and serialization do not fail in the model. *)

(** The parent's constructor: the template and the format it keeps. *)
Definition FeedExporter___init__ (host : Host) (settings : loc)
  : M (pyval * string) :=
  urifmt ← settings_getitem settings "FEED_URI";
  if negb (py_truthy urifmt) then raise NotConfigured else
  fmt ← settings_getitem settings "FEED_FORMAT";
  match fmt, urifmt with
  | PStr f, PStr u =>
    if negb (storage_supported host u) then raise NotConfigured
    else if negb (exporter_supported host (lower f)) then raise NotConfigured
    else mret (urifmt, lower f)
  | _, _ => raise AttributeError
  end.

(** The parameters of the uri: the attributes of the spider, the time of
    the call, and what the [_uripar] hook adds, which the constructor
    below sets to [get_uri_parameters]. *)
Definition FeedExporter__get_uri_params (self : ChunkedFeedExporter)
  (now : datetime) (spider : gmap string pyval) : gmap string pyval :=
  get_uri_parameters self now
    (<["time" := PStr (strftime now "%Y-%m-%dT%H-%M-%S")]> spider).

Definition open_spider (now : datetime) (spider : gmap string pyval)
  (self : ChunkedFeedExporter) : result ChunkedFeedExporter :=
  let params := FeedExporter__get_uri_params self now spider in
  uri ← match urifmt self with
        | PStr template => Template.format template params
        | _ => Raise TypeError
        end;
  mret (with_slot self
          (Some {| uri := uri; itemcount := 0; exported := []; uripar := params |})).

Definition close_spider (self : ChunkedFeedExporter) : result ChunkedFeedExporter :=
  match slot self with
  | Some s => Ok (with_slot (with_stored self (stored self ++ [s])%list) None)
  | None => Raise AttributeError
  end.

Definition FeedExporter_item_scraped (self : ChunkedFeedExporter) (item : Item)
  : result ChunkedFeedExporter :=
  match slot self with
  | Some s =>
    Ok (with_slot self
          (Some {| uri := uri s; itemcount := itemcount s + 1;
                   exported := (exported s ++ [item])%list;
                   uripar := uripar s |}))
  | None => Raise AttributeError
  end.

(** ** The methods of [ChunkedFeedExporter] *)

Definition _get_from_settings_or_environ (host : Host) (settings : loc)
  (name : string) (default : string) : M pyval :=
  settings_get settings name (PStr (option.default default (environ host !! name))).

Definition _get_from_settings_or_not_configured (settings : loc)
  (name : string) (default : pyval) : M pyval :=
  value ← settings_get settings name default;
  if negb (py_truthy value) then raise NotConfigured else mret value.

Definition __init__ (host : Host) (settings : loc) : M ChunkedFeedExporter :=
  settings ← deepcopy settings;
  chunked_feed_uri ←
    _get_from_settings_or_not_configured settings "CHUNKED_FEED_URI" PNone;
  chunked_feed_format ←
    _get_from_settings_or_not_configured settings "CHUNKED_FEED_FORMAT" PNone;
  items_per_chunk ←
    _get_from_settings_or_not_configured settings "CHUNKED_FEED_ITEMS_PER_CHUNK" PNone;
  _ ← settings_set settings "FEED_URI" chunked_feed_uri 100;
  _ ← settings_set settings "FEED_FORMAT" chunked_feed_format 100;
  parent ← FeedExporter___init__ host settings;
  timestamp_format ←
    settings_get settings "CHUNKED_FEED_TIMESTAMP_FORMAT" (PStr DEFAULT_TIMESTAMP_FORMAT);
  scrapy_job ← _get_from_settings_or_environ host settings "SCRAPY_JOB" "nojob";
  scrapy_project ←
    _get_from_settings_or_environ host settings "SCRAPY_PROJECT" "noproject";
  scrapy_project_id ←
    _get_from_settings_or_environ host settings "SCRAPY_PROJECT_ID" "noprojectid";
  mret {| settings := settings;
          urifmt := fst parent;
          format := snd parent;
          _items_per_chunk := items_per_chunk;
          _chunk_number := 1;
          _timestamp_format := timestamp_format;
          _scrapy_job := scrapy_job;
          _scrapy_project := scrapy_project;
          _scrapy_project_id := scrapy_project_id;
          slot := None;
          stored := [] |}.

Definition _reset_exporter (now : datetime) (spider : gmap string pyval)
  (self : ChunkedFeedExporter) : result ChunkedFeedExporter :=
  self ← close_spider self;
  let self := with_chunk_number self (_chunk_number self + 1) in
  open_spider now spider self.

(** The condition of [item_scraped]:
    [self._items_per_chunk and self.slot.itemcount >= self._items_per_chunk]. *)
Definition chunk_is_full (self : ChunkedFeedExporter) : result bool :=
  if py_truthy (_items_per_chunk self) then
    match slot self with
    | Some s => Ok (py_int_ge (itemcount s) (_items_per_chunk self))
    | None => Raise AttributeError
    end
  else Ok false.

Definition item_scraped (now : datetime) (spider : gmap string pyval)
  (self : ChunkedFeedExporter) (item : Item) : result ChunkedFeedExporter :=
  full ← chunk_is_full self;
  self ← (if full : bool then _reset_exporter now spider self else Ok self);
  FeedExporter_item_scraped self item.

(** ** A run *)

(** The items of a run, scraped one after the other; [clock k] is the
    time at the [k]-th call into the exporter. *)
Fixpoint add_items (clock : nat -> datetime) (k : nat)
  (spider : gmap string pyval) (self : ChunkedFeedExporter) (items : list Item)
  : result ChunkedFeedExporter :=
  match items with
  | [] => Ok self
  | item :: rest =>
    self ← item_scraped (clock k) spider self item;
    add_items clock (S k) spider self rest
  end.

(** A whole run of a constructed exporter: the spider opens, the items
    are scraped, the spider closes. *)
Definition run (clock : nat -> datetime) (spider : gmap string pyval)
  (self : ChunkedFeedExporter) (items : list Item) : result ChunkedFeedExporter :=
  self ← open_spider (clock O) spider self;
  self ← add_items clock 1 spider self items;
  close_spider self.

(** The chunks of a finished run: the records of each stored slot. *)
Definition chunks (self : ChunkedFeedExporter) : list (list Item) :=
  exported <$> stored self.

(** [ceil(n / t)] for a positive [t]. *)
Definition ceil_div (n t : Z) : Z := (n + t - 1) / t.

(** The chunk number each stored slot was opened with. *)
Definition chunk_numbers (self : ChunkedFeedExporter) : list (option pyval) :=
  (fun s => uripar s !! "chunk_number") <$> stored self.

(** ** The setting of the tests *)

(** The settings, spider and items of [tests/test_chunkexports.py], with
    the json exporter the only one installed and a fixed clock. *)
Definition EXPORT_FILE_PATTERN : string :=
  ".exports/export_test_%(chunk_number)02d.json".

Definition test_settings (n_items_per_chunk : pyval) : Settings.t :=
  Settings.of_dict
    [("CHUNKED_FEED_URI", PStr EXPORT_FILE_PATTERN);
     ("CHUNKED_FEED_FORMAT", PStr "json");
     ("CHUNKED_FEED_ITEMS_PER_CHUNK", n_items_per_chunk)].

Definition test_host : Host :=
  {| environ := ∅;
     storage_supported := fun _ => true;
     exporter_supported := fun f => String.eqb f "json" |}.

Definition test_spider : gmap string pyval := {[ "name" := PStr "chunk_test" ]}.

Definition test_clock (k : nat) : datetime :=
  {| year := 2014; month := 5; day := 6; hour := 7; minute := 8; second := k |}.

Definition FakeItem (id : Z) : Item := {[ "id" := PInt id ]}.

(** The items [FakeItem(id=1)] to [FakeItem(id=n)]. *)
Definition generate (n : nat) : list Item := (FakeItem ∘ Z.of_nat) <$> seq 1 n.

(** The test settings with a timestamp format of the year alone. *)
Definition test_settings_year : Settings.t :=
  Settings.set (test_settings (PInt 1)) "CHUNKED_FEED_TIMESTAMP_FORMAT" (PStr "%Y") 20.

(** The exporter the test setting constructs, if it constructs one. *)
Definition test_exporter (n_items_per_chunk : pyval) : result ChunkedFeedExporter :=
  snd (__init__ test_host O [test_settings n_items_per_chunk]).

(** The exporter the constructor makes of the test settings, written
    out. *)
Definition test_constructed (n_items_per_chunk : pyval) : ChunkedFeedExporter :=
  {| settings := 1%nat;
     urifmt := PStr EXPORT_FILE_PATTERN;
     format := "json";
     _items_per_chunk := n_items_per_chunk;
     _chunk_number := 1;
     _timestamp_format := PStr DEFAULT_TIMESTAMP_FORMAT;
     _scrapy_job := PStr "nojob";
     _scrapy_project := PStr "noproject";
     _scrapy_project_id := PStr "noprojectid";
     slot := None;
     stored := [] |}.

(** The store the constructor leaves behind in the test setting. *)
Definition test_store (n_items_per_chunk : pyval) : store :=
  fst (__init__ test_host O [test_settings n_items_per_chunk]).

(** The number of items in each chunk after the test's [start] with
    [n_items] items and [stop]. *)
Definition test_chunk_sizes (n_items_per_chunk : Z) (n_items : nat)
  : result (list nat) :=
  self ← test_exporter (PInt n_items_per_chunk);
  self ← run test_clock test_spider self (generate n_items);
  mret (length <$> chunks self).

(** ** The statements of the spec *)

(** The partition property for the items of a run, its threshold [t]
    and its chunks: [ceil(n/t)] chunks, all but the last of [t] records,
    the last of [n - t*(ceil(n/t)-1)] records, a number in [1, t]. *)
Definition partition_property (t : Z) (items : list Item)
  (chunks : list (list Item)) : Prop :=
  let n := Z.of_nat (length items) in
  let k := ceil_div n t in
  Z.of_nat (length chunks) = k
  /\ (Z.of_nat ∘ length) <$> chunks
     = (replicate (Z.to_nat (k - 1)) t ++ [n - t * (k - 1)])%list
  /\ 1 <= n - t * (k - 1) <= t.

(** A setting that is absent or [None], zero, or the empty string: the
    values [not value] holds of. *)
Definition unset_or_empty (v : pyval) : Prop :=
  v = PNone \/ v = PInt 0 \/ v = PStr "".

(** The address of the slot an opening left, if it left one. *)
Definition opened_uri (r : result ChunkedFeedExporter) : result (option string) :=
  self ← r; mret (uri <$> slot self).

(** The chunk numbers [1, 2, ..., k]. *)
Definition numbers_from_1 (k : nat) : list (option pyval) :=
  (fun i => Some (PInt (Z.of_nat i))) <$> seq 1 k.

(** Monotonic chunk numbering for a run of [items] with threshold [t]:
    the numbers assigned are [1, 2, ..., ceil(n/t)]. *)
Definition monotonic_numbering (t : Z) (items : list Item)
  (numbers : list (option pyval)) : Prop :=
  numbers = numbers_from_1 (Z.to_nat (ceil_div (Z.of_nat (length items)) t)).

(** ** The vocabulary of the proofs *)

(** [%d] asks for an integer; [%s] takes any value. *)
Definition is_int (v : pyval) : bool :=
  match v with
  | PInt _ => true
  | _ => false
  end.

Definition same_kinds (p q : gmap string pyval) : Prop :=
  forall k, is_int <$> (p !! k) = is_int <$> (q !! k).

Definition mode_alike (m m' : Template.mode) : Prop :=
  match m, m' with
  | Template.Text, Template.Text => True
  | Template.Percent, Template.Percent => True
  | Template.Key k d, Template.Key k' d' => k = k' /\ d = d'
  | Template.Spec v z w, Template.Spec v' z' w' => is_int v = is_int v' /\ z = z' /\ w = w'
  | _, _ => False
  end.

(** The attributes the constructor sets once and for all. *)
Record same_config (a b : ChunkedFeedExporter) : Prop := {
  cfg_settings : settings a = settings b;
  cfg_urifmt : urifmt a = urifmt b;
  cfg_format : format a = format b;
  cfg_items_per_chunk : _items_per_chunk a = _items_per_chunk b;
  cfg_timestamp_format : _timestamp_format a = _timestamp_format b;
  cfg_scrapy_job : _scrapy_job a = _scrapy_job b;
  cfg_scrapy_project : _scrapy_project a = _scrapy_project b;
  cfg_scrapy_project_id : _scrapy_project_id a = _scrapy_project_id b
}.

(** The slot [s] after an item went to it. *)
Definition appended_slot (s : SpiderSlot) (item : Item) : SpiderSlot :=
  {| uri := uri s; itemcount := itemcount s + 1;
     exported := (exported s ++ [item])%list; uripar := uripar s |}.

(** The exporter after an item went to the open slot [s]. *)
Definition appended (self : ChunkedFeedExporter) (s : SpiderSlot) (item : Item)
  : ChunkedFeedExporter :=
  with_slot self (Some (appended_slot s item)).

(** The slot opened at [u] for the next chunk, after the item went to it. *)
Definition rotated_slot (now : datetime) (spider : gmap string pyval)
  (self : ChunkedFeedExporter) (u : string) (item : Item) : SpiderSlot :=
  let next := with_chunk_number self (_chunk_number self + 1) in
  {| uri := u; itemcount := 0 + 1; exported := ([] ++ [item])%list;
     uripar := FeedExporter__get_uri_params next now spider |}.

(** The exporter after the open slot [s] was closed and stored, the chunk
    number advanced, a slot opened at [u] and the item written to it. *)
Definition rotated (now : datetime) (spider : gmap string pyval)
  (self : ChunkedFeedExporter) (s : SpiderSlot) (u : string) (item : Item)
  : ChunkedFeedExporter :=
  let next := with_chunk_number self (_chunk_number self + 1) in
  with_slot (with_stored next (stored self ++ [s])%list)
    (Some (rotated_slot now spider self u item)).

(** What holds of an exporter with the slot [s] open after the items
    [done] were scraped. *)
Record running (self0 : ChunkedFeedExporter) (done : list Item)
  (self : ChunkedFeedExporter) (s : SpiderSlot)
  : Prop := {
  run_config : same_config self0 self;
  run_slot : slot self = Some s;
  run_records : (concat (exported <$> stored self) ++ exported s)%list = done;
  run_count : itemcount s = Z.of_nat (length (exported s));
  run_number : _chunk_number self = Z.of_nat (length (stored self)) + 1;
  run_numbers :
    (fun s' => uripar s' !! "chunk_number") <$> (stored self ++ [s])%list
    = numbers_from_1 (S (length (stored self)));
  run_identity :
    Forall (fun s' =>
              uripar s' !! "scrapy_job" = Some (_scrapy_job self0)
              /\ uripar s' !! "scrapy_project_id" = Some (_scrapy_project_id self0))
           (stored self ++ [s])%list
}.

(** The exporter after the last item: its open slot closed and stored. *)
Definition finished (self : ChunkedFeedExporter) (s : SpiderSlot)
  : ChunkedFeedExporter :=
  with_slot (with_stored self (stored self ++ [s])%list) None.

(** Every stored slot holds [t] items and the open one at most [t], and
    at least one once an item was scraped. *)
Record filling (t : Z) (done : list Item) (self : ChunkedFeedExporter)
  (s : SpiderSlot)
  : Prop := {
  fill_stored :
    Forall (fun s' => Z.of_nat (length (exported s')) = t) (stored self);
  fill_total :
    Z.of_nat (length done) = t * Z.of_nat (length (stored self)) + itemcount s;
  fill_upper : itemcount s <= t;
  fill_lower : done <> [] -> 1 <= itemcount s
}.

(** The values the constructor reads from the settings [s] it was given:
    the three it insists on, and what it makes of the others. *)
Record constructed (host : Host) (s : Settings.t) (self : ChunkedFeedExporter)
  : Prop := {
  con_uri : py_truthy (Settings.get s "CHUNKED_FEED_URI" PNone) = true;
  con_format : py_truthy (Settings.get s "CHUNKED_FEED_FORMAT" PNone) = true;
  con_items : _items_per_chunk self = Settings.get s "CHUNKED_FEED_ITEMS_PER_CHUNK" PNone;
  con_items_set : py_truthy (_items_per_chunk self) = true;
  con_number : _chunk_number self = 1;
  con_slot : slot self = None;
  con_stored : stored self = [];
  con_timestamp_format :
    _timestamp_format self
    = Settings.get s "CHUNKED_FEED_TIMESTAMP_FORMAT" (PStr DEFAULT_TIMESTAMP_FORMAT);
  con_job :
    _scrapy_job self
    = Settings.get s "SCRAPY_JOB"
        (PStr (default "nojob" (environ host !! "SCRAPY_JOB")));
  con_project :
    _scrapy_project self
    = Settings.get s "SCRAPY_PROJECT"
        (PStr (default "noproject" (environ host !! "SCRAPY_PROJECT")));
  con_project_id :
    _scrapy_project_id self
    = Settings.get s "SCRAPY_PROJECT_ID"
        (PStr (default "noprojectid" (environ host !! "SCRAPY_PROJECT_ID")))
}.

(** ** The vocabulary of the further properties *)

(** A text without [%]: the template copies it as it is. *)
Fixpoint percent_free (s : string) : bool :=
  match s with
  | EmptyString => true
  | String c rest => negb (Ascii.eqb c "%") && percent_free rest
  end.

(** A key without parentheses. *)
Fixpoint paren_free (s : string) : bool :=
  match s with
  | EmptyString => true
  | String c rest =>
    negb (Ascii.eqb c "(") && negb (Ascii.eqb c ")") && paren_free rest
  end.

(** The condition of [item_scraped] for the open slot [s]. *)
Definition slot_is_full (self : ChunkedFeedExporter) (s : SpiderSlot) : bool :=
  py_truthy (_items_per_chunk self)
  && py_int_ge (itemcount s) (_items_per_chunk self).

(** The template [urifmt] resolves to [u] on the parameters [params]. *)
Definition resolves (urifmt : pyval) (params : gmap string pyval) (u : string)
  : Prop :=
  match urifmt with
  | PStr template => Template.format template params = Ok u
  | _ => False
  end.

(** A run up to its last item, the spider still open. *)
Definition started (clock : nat -> datetime) (spider : gmap string pyval)
  (self : ChunkedFeedExporter) (items : list Item) : result ChunkedFeedExporter :=
  self ← open_spider (clock O) spider self;
  add_items clock 1 spider self items.

(** Every slot of the run was opened at the address its parameters
    resolve to. *)
Definition addressed (self0 self : ChunkedFeedExporter) (s : SpiderSlot) : Prop :=
  Forall (fun s' => resolves (urifmt self0) (uripar s') (uri s'))
         (stored self ++ [s])%list.

(** The chunks of a run with a negative number of items per chunk: an
    empty one, then one for each record. *)
Definition one_chunk_each (items : list Item) : list (list Item) :=
  [] :: ((fun item => [item]) <$> items).

(** The number a text of decimal digits stands for, leading zeros
    allowed. *)
Definition decimal_value (s : string) : option N :=
  N.of_uint <$> NilEmpty.uint_of_string s.

(** [get_chunk_filename(chunk)] of the tests:
    [EXPORT_FILE_PATTERN % {'chunk_number': chunk}]. *)
Definition get_chunk_filename (chunk : Z) : result string :=
  Template.format EXPORT_FILE_PATTERN {[ "chunk_number" := PInt chunk ]}.


(** A list cut into consecutive blocks of [t] elements, the last one with
    what is left. *)
Fixpoint blocks_go (fuel t : nat) (items : list Item) : list (list Item) :=
  match fuel, items with
  | O, _ => []
  | _, [] => []
  | S fuel', _ => take t items :: blocks_go fuel' t (drop t items)
  end.

Definition blocks (t : nat) (items : list Item) : list (list Item) :=
  blocks_go (length items) t items.

(** The chunks of a run with [t > 0] items per chunk: the blocks of [t]
    records, and one empty chunk when there is no record. *)
Definition chunks_of_records (t : Z) (items : list Item) : list (list Item) :=
  match items with
  | [] => [[]]
  | _ => blocks (Z.to_nat t) items
  end.

(** The call at which chunk [j], counted from 0, is opened when [t]
    records go to a chunk: the start for the first chunk, and the arrival
    of record [j*t + 1] for the others. *)
Definition opening_call (t : nat) (j : nat) : nat :=
  match j with
  | O => O
  | S _ => (j * t + 1)%nat
  end.

(** The timestamp parameter of each stored slot. *)
Definition chunk_timestamps (self : ChunkedFeedExporter) : list (option pyval) :=
  (fun s => uripar s !! "timestamp") <$> stored self.

(** A clock that advances one hour with every call. *)
Definition hourly_clock (k : nat) : datetime :=
  {| year := 2014; month := 5; day := 6; hour := k; minute := 0; second := 0 |}.

(** * Properties *)

(** ** The result monad *)

Lemma bind_Ok {A B} (m : result A) (f : A -> result B) (b : B) :
  m ≫= f = Ok b -> exists a, m = Ok a /\ f a = Ok b.
Proof. destruct m as [a|e]; simpl; intros H; [eauto | discriminate]. Qed.

Lemma is_ok_true {A} (r : result A) : is_ok r = true -> exists a, r = Ok a.
Proof. destruct r; simpl; intros H; [eauto | discriminate]. Qed.

(** ** Whether a template resolves depends on the kinds of the values only *)

Module TemplateFacts.
Import Template.

Lemma convert_ok_kind c v v' zero width :
  is_int v = is_int v' ->
  is_ok (convert c v zero width) = is_ok (convert c v' zero width).
Proof.
  intros Hk. unfold convert.
  destruct (Ascii.eqb c "d" || Ascii.eqb c "i").
  - destruct v, v'; simpl in *; congruence.
  - destruct (Ascii.eqb c "s"); reflexivity.
Qed.

Lemma go_ok_kinds p q :
  same_kinds p q ->
  forall template m m' out out',
    mode_alike m m' ->
    is_ok (go p m out template) = is_ok (go q m' out' template).
Proof.
  intros Hpq. induction template as [|c rest IH]; intros m m' out out' Hm.
  - destruct m, m'; simpl in *; tauto.
  - destruct m, m'; simpl in Hm; try tauto; simpl.
    + destruct (Ascii.eqb c "%"); apply IH; exact I.
    + destruct (Ascii.eqb c "%"); [apply IH; exact I|].
      destruct (Ascii.eqb c "("); [apply IH; split; reflexivity | reflexivity].
    + destruct Hm as [-> ->].
      destruct (Ascii.eqb c ")").
      * destruct depth0 as [|d].
        -- specialize (Hpq key0).
           destruct (p !! key0) as [v|], (q !! key0) as [v'|];
             simpl in Hpq; try discriminate; [|reflexivity].
           apply IH. simpl. split; [congruence | split; reflexivity].
        -- apply IH. split; reflexivity.
      * destruct (Ascii.eqb c "("); apply IH; split; reflexivity.
    + destruct Hm as (Hk & -> & ->).
      destruct (is_digit c) as [[|d]|], width0 as [w|];
        try (apply IH; simpl; tauto).
      * pose proof (convert_ok_kind c v v0 zero0 (default O (Some w)) Hk) as Hc.
        destruct (convert c v zero0 (default O (Some w))),
                 (convert c v0 zero0 (default O (Some w)));
          simpl in *; try discriminate; [apply IH; exact I | reflexivity].
      * pose proof (convert_ok_kind c v v0 zero0 (default O None) Hk) as Hc.
        destruct (convert c v zero0 (default O None)),
                 (convert c v0 zero0 (default O None));
          simpl in *; try discriminate; [apply IH; exact I | reflexivity].
Qed.

Lemma format_ok_kinds template p q :
  same_kinds p q ->
  is_ok (format template p) = is_ok (format template q).
Proof. intros H. apply go_ok_kinds; [exact H | exact I]. Qed.

End TemplateFacts.

(** ** What the operations on an open exporter change *)

Lemma same_config_refl a : same_config a a.
Proof. split; reflexivity. Qed.

Lemma same_config_trans a b c : same_config a b -> same_config b c -> same_config a c.
Proof. intros [] []; split; congruence. Qed.

Lemma same_config_with_slot a s : same_config a (with_slot a s).
Proof. split; reflexivity. Qed.

Lemma same_config_with_stored a l : same_config a (with_stored a l).
Proof. split; reflexivity. Qed.

Lemma same_config_with_chunk_number a n : same_config a (with_chunk_number a n).
Proof. split; reflexivity. Qed.

Lemma open_spider_inv now spider self self' :
  open_spider now spider self = Ok self' ->
  exists u,
    self' = with_slot self
              (Some {| uri := u; itemcount := 0; exported := [];
                       uripar := FeedExporter__get_uri_params self now spider |}).
Proof.
  unfold open_spider. intros H.
  apply bind_Ok in H as (u & _ & H). injection H as <-. eauto.
Qed.

Lemma close_spider_inv self self' :
  close_spider self = Ok self' ->
  exists s, slot self = Some s /\
    self' = with_slot (with_stored self (stored self ++ [s])%list) None.
Proof.
  unfold close_spider. destruct (slot self) as [s|]; intros H; [|discriminate].
  injection H as <-. eauto.
Qed.

Lemma FeedExporter_item_scraped_inv self item self' :
  FeedExporter_item_scraped self item = Ok self' ->
  exists s, slot self = Some s /\
    self' = with_slot self
              (Some {| uri := uri s; itemcount := itemcount s + 1;
                       exported := (exported s ++ [item])%list;
                       uripar := uripar s |}).
Proof.
  unfold FeedExporter_item_scraped.
  destruct (slot self) as [s|]; intros H; [|discriminate].
  injection H as <-. eauto.
Qed.

(** The parameters of two exporters with the same job and project id
    hold values of the same kinds, whatever the chunk number and the
    time. *)
Lemma uri_params_same_kinds a b now now' spider :
  _scrapy_job a = _scrapy_job b ->
  _scrapy_project_id a = _scrapy_project_id b ->
  same_kinds
    (FeedExporter__get_uri_params a now spider)
    (FeedExporter__get_uri_params b now' spider).
Proof.
  intros Hj Hp k.
  unfold FeedExporter__get_uri_params, get_uri_parameters.
  rewrite Hj, Hp, !lookup_insert.
  repeat case_decide; reflexivity.
Qed.

(** Opening succeeds for every chunk number and time once it succeeds
    for one. *)
Lemma open_spider_ok_config a b now now' spider :
  same_config a b ->
  is_ok (open_spider now spider a) = is_ok (open_spider now' spider b).
Proof.
  intros [].
  assert (Hk := uri_params_same_kinds a b now now' spider
                  cfg_scrapy_job0 cfg_scrapy_project_id0).
  unfold open_spider. rewrite <- cfg_urifmt0.
  destruct (urifmt a) as [| |template]; try reflexivity.
  pose proof (TemplateFacts.format_ok_kinds template _ _ Hk) as Hf.
  destruct (Template.format template (FeedExporter__get_uri_params a now spider)),
           (Template.format template (FeedExporter__get_uri_params b now' spider));
    simpl in *; congruence.
Qed.

(** ** One scraped item *)

Lemma chunk_is_full_open self s :
  slot self = Some s ->
  chunk_is_full self
  = Ok (py_truthy (_items_per_chunk self)
        && py_int_ge (itemcount s) (_items_per_chunk self)).
Proof.
  intros Hs. unfold chunk_is_full. rewrite Hs.
  destruct (py_truthy (_items_per_chunk self)); reflexivity.
Qed.

Lemma item_scraped_not_full now spider self s item :
  slot self = Some s ->
  chunk_is_full self = Ok false ->
  item_scraped now spider self item = Ok (appended self s item).
Proof.
  intros Hs Hf. unfold item_scraped. rewrite Hf. simpl.
  unfold FeedExporter_item_scraped. rewrite Hs. reflexivity.
Qed.

Lemma item_scraped_full now spider self s item :
  slot self = Some s ->
  chunk_is_full self = Ok true ->
  is_ok (open_spider now spider self) = true ->
  exists u,
    match urifmt self with
    | PStr template =>
      Template.format template
        (FeedExporter__get_uri_params
           (with_chunk_number self (_chunk_number self + 1)) now spider) = Ok u
    | _ => False
    end /\
    item_scraped now spider self item = Ok (rotated now spider self s u item).
Proof.
  intros Hs Hf Hopen.
  set (next := with_chunk_number self (_chunk_number self + 1)).
  set (closed := with_slot (with_stored self (stored self ++ [s])%list) None).
  set (opening := with_chunk_number closed (_chunk_number closed + 1)).
  assert (Hnext : is_ok (open_spider now spider opening) = true).
  { rewrite <- Hopen. symmetry. apply open_spider_ok_config. split; reflexivity. }
  assert (Hreset : _reset_exporter now spider self = open_spider now spider opening).
  { unfold _reset_exporter, close_spider. rewrite Hs. reflexivity. }
  unfold item_scraped. rewrite Hf. cbn [mbind result_bind]. rewrite Hreset.
  unfold open_spider in Hnext |- *.
  change (urifmt opening) with (urifmt self) in *.
  change (FeedExporter__get_uri_params opening now spider)
    with (FeedExporter__get_uri_params next now spider) in *.
  destruct (urifmt self) as [| |template]; try discriminate.
  destruct (Template.format template _) as [u|e]; [|discriminate].
  exists u. split; reflexivity.
Qed.

(** ** The invariant of a run *)

Lemma numbers_from_1_S n :
  numbers_from_1 (S n)
  = (numbers_from_1 n ++ [Some (PInt (Z.of_nat n + 1))])%list.
Proof.
  unfold numbers_from_1. rewrite seq_S, fmap_app. simpl.
  do 4 f_equal. lia.
Qed.

Lemma add_items_invariant (P : list Item -> ChunkedFeedExporter -> Prop)
  clock spider :
  (forall now done self item,
      P done self ->
      exists self', item_scraped now spider self item = Ok self'
                    /\ P (done ++ [item])%list self') ->
  forall items k done self,
    P done self ->
    exists self', add_items clock k spider self items = Ok self'
                  /\ P (done ++ items)%list self'.
Proof.
  intros Hstep. induction items as [|item rest IH]; intros k done self HP.
  - exists self. rewrite app_nil_r. split; [reflexivity | exact HP].
  - destruct (Hstep (clock k) done self item HP) as (self1 & Hs & HP1).
    destruct (IH (S k) _ self1 HP1) as (self2 & Hr & HP2).
    exists self2. simpl. rewrite Hs. cbn [mbind result_bind].
    split; [exact Hr|]. rewrite <- app_assoc in HP2. exact HP2.
Qed.

Section Run.

Variable spider : gmap string pyval.

(** The exporter as the constructor left it. *)
Variable self0 : ChunkedFeedExporter.

Lemma running_appended done self s item :
  running self0 done self s ->
  running self0 (done ++ [item])%list (appended self s item) (appended_slot s item).
Proof.
  intros []. split; simpl.
  - eapply same_config_trans; [eassumption | apply same_config_with_slot].
  - reflexivity.
  - simpl. rewrite app_assoc. congruence.
  - simpl. rewrite length_app. simpl. lia.
  - assumption.
  - rewrite fmap_app in *. exact run_numbers0.
  - rewrite Forall_app, Forall_singleton in run_identity0 |- *.
    exact run_identity0.
Qed.

Lemma running_rotated now done self s u item :
  running self0 done self s ->
  running self0 (done ++ [item])%list (rotated now spider self s u item)
    (rotated_slot now spider self u item).
Proof.
  intros []. destruct run_config0. split; simpl.
  - split; assumption.
  - reflexivity.
  - rewrite fmap_app, concat_app. simpl. rewrite app_nil_r. congruence.
  - reflexivity.
  - rewrite length_app. simpl. lia.
  - rewrite length_app. simpl. rewrite Nat.add_1_r.
    rewrite numbers_from_1_S, fmap_app. f_equal; [exact run_numbers0|].
    simpl. unfold FeedExporter__get_uri_params, get_uri_parameters.
    rewrite lookup_insert_eq. simpl. rewrite run_number0.
    do 3 f_equal. lia.
  - rewrite Forall_app. split; [exact run_identity0|].
    rewrite Forall_singleton. simpl.
    unfold FeedExporter__get_uri_params, get_uri_parameters. simpl.
    rewrite cfg_scrapy_job0, cfg_scrapy_project_id0.
    split; simplify_map_eq; reflexivity.
Qed.

Lemma running_opened now self :
  _chunk_number self0 = 1 ->
  stored self0 = [] ->
  open_spider now spider self0 = Ok self ->
  exists s, running self0 [] self s.
Proof.
  intros Hn Hst Hopen. apply open_spider_inv in Hopen as (u & ->).
  eexists. split; simpl; rewrite ?Hst; simpl; try reflexivity.
  - apply same_config_with_slot.
  - exact Hn.
  - cbn [uripar]. unfold FeedExporter__get_uri_params, get_uri_parameters.
    rewrite lookup_insert_eq, Hn. reflexivity.
  - rewrite Forall_singleton. cbn [uripar].
    unfold FeedExporter__get_uri_params, get_uri_parameters.
    split; simplify_map_eq; reflexivity.
Qed.

(** Every opening succeeds once the first one does. *)
Hypothesis open_ok : forall now, is_ok (open_spider now spider self0) = true.

Lemma running_step now done self s item :
  running self0 done self s ->
  exists self' s',
    item_scraped now spider self item = Ok self'
    /\ running self0 (done ++ [item])%list self' s'.
Proof.
  intros Hrun.
  pose proof (chunk_is_full_open self s (run_slot _ _ _ _ Hrun)) as Hfull.
  destruct (py_truthy (_items_per_chunk self)
            && py_int_ge (itemcount s) (_items_per_chunk self)).
  - destruct (item_scraped_full now spider self s item
                (run_slot _ _ _ _ Hrun) Hfull) as (u & _ & Hscr).
    { rewrite <- (open_ok now). symmetry. apply open_spider_ok_config.
      apply (run_config _ _ _ _ Hrun). }
    pose proof (running_rotated now done self s u item Hrun). eauto.
  - pose proof (running_appended done self s item Hrun) as Hrun'.
    exists (appended self s item), (appended_slot s item). split; [|exact Hrun'].
    apply item_scraped_not_full; [apply (run_slot _ _ _ _ Hrun) | exact Hfull].
Qed.

Lemma run_running clock items :
  _chunk_number self0 = 1 ->
  stored self0 = [] ->
  exists self s,
    run clock spider self0 items = Ok (finished self s)
    /\ running self0 items self s.
Proof.
  intros Hn Hst. unfold run.
  destruct (is_ok_true _ (open_ok (clock O))) as (self1 & Hopen).
  destruct (running_opened _ _ Hn Hst Hopen) as (s1 & Hrun1).
  destruct (add_items_invariant (fun done self => exists s, running self0 done self s)
              clock spider) with (items := items) (k := 1%nat) (done := @nil Item)
                                 (self := self1)
    as (self2 & Hadd & s2 & Hrun2).
  { intros now done self item (s & Hrun).
    destruct (running_step now done self s item Hrun) as (self' & s' & ? & ?).
    eauto. }
  { eauto. }
  exists self2, s2. rewrite Hopen. cbn [mbind result_bind]. rewrite Hadd.
  cbn [mbind result_bind]. unfold close_spider.
  rewrite (run_slot _ _ _ _ Hrun2). split; [reflexivity | exact Hrun2].
Qed.

(** *** With a positive number of items per chunk *)

Variable t : Z.
Hypothesis t_pos : 0 < t.
Hypothesis t_set : _items_per_chunk self0 = PInt t.

Lemma filling_step now done self s item :
  running self0 done self s ->
  filling t done self s ->
  exists self' s',
    item_scraped now spider self item = Ok self'
    /\ running self0 (done ++ [item])%list self' s'
    /\ filling t (done ++ [item])%list self' s'.
Proof.
  intros Hrun Hfill.
  pose proof (chunk_is_full_open self s (run_slot _ _ _ _ Hrun)) as Hfull.
  pose proof (run_count _ _ _ _ Hrun) as Hcount.
  rewrite <- (cfg_items_per_chunk _ _ (run_config _ _ _ _ Hrun)), t_set in Hfull.
  simpl in Hfull.
  destruct Hfill as [Hst Htot Hup Hlo].
  replace (t =? 0) with false in Hfull by (symmetry; apply Z.eqb_neq; lia).
  simpl in Hfull.
  destruct (Z.leb_spec t (itemcount s)) as [Hle|Hlt].
  - destruct (item_scraped_full now spider self s item
                (run_slot _ _ _ _ Hrun) Hfull) as (u & _ & Hscr).
    { rewrite <- (open_ok now). symmetry. apply open_spider_ok_config.
      apply (run_config _ _ _ _ Hrun). }
    exists (rotated now spider self s u item), (rotated_slot now spider self u item).
    split; [exact Hscr|]. split; [apply running_rotated; exact Hrun|].
    split; simpl.
    + rewrite Forall_app, Forall_singleton. split; [exact Hst|]. lia.
    + rewrite !length_app. simpl. lia.
    + lia.
    + lia.
  - exists (appended self s item), (appended_slot s item).
    split; [apply item_scraped_not_full;
            [apply (run_slot _ _ _ _ Hrun) | exact Hfull]|].
    split; [apply running_appended; exact Hrun|].
    split; simpl.
    + exact Hst.
    + rewrite length_app. simpl. lia.
    + lia.
    + lia.
Qed.

Lemma run_filling clock items :
  _chunk_number self0 = 1 ->
  stored self0 = [] ->
  exists self s,
    run clock spider self0 items = Ok (finished self s)
    /\ running self0 items self s
    /\ filling t items self s.
Proof.
  intros Hn Hst. unfold run.
  destruct (is_ok_true _ (open_ok (clock O))) as (self1 & Hopen).
  destruct (running_opened _ _ Hn Hst Hopen) as (s1 & Hrun1).
  assert (Hfill1 : filling t [] self1 s1).
  { apply open_spider_inv in Hopen as (u & ->).
    pose proof (run_slot _ _ _ _ Hrun1) as Hs. simpl in Hs. injection Hs as <-.
    split; simpl; rewrite ?Hst; simpl; try lia; [constructor | congruence]. }
  destruct (add_items_invariant
              (fun done self => exists s, running self0 done self s /\ filling t done self s)
              clock spider) with (items := items) (k := 1%nat) (done := @nil Item)
                                 (self := self1)
    as (self2 & Hadd & s2 & Hrun2 & Hfill2).
  { intros now done self item (s & Hrun & Hfill).
    destruct (filling_step now done self s item Hrun Hfill)
      as (self' & s' & ? & ? & ?).
    eauto. }
  { eauto. }
  exists self2, s2. rewrite Hopen. cbn [mbind result_bind]. rewrite Hadd.
  cbn [mbind result_bind]. unfold close_spider.
  rewrite (run_slot _ _ _ _ Hrun2). split; [reflexivity | split; assumption].
Qed.

End Run.

(** ** The constructor *)

Lemma deepcopy_spec (h : store) ref s :
  h !! ref = Some s -> deepcopy ref h = ((h ++ [s])%list, Ok (length h)).
Proof. intros H. unfold deepcopy. rewrite H. reflexivity. Qed.

Lemma lookup_copy (h : store) (s : Settings.t) : (h ++ [s])%list !! length h = Some s.
Proof. rewrite lookup_app_r, Nat.sub_diag by lia. reflexivity. Qed.

Lemma settings_get_copy (h : store) s name d :
  settings_get (length h) name d (h ++ [s])%list
  = ((h ++ [s])%list, Ok (Settings.get s name d)).
Proof. unfold settings_get. rewrite lookup_copy. reflexivity. Qed.

Lemma settings_getitem_copy (h : store) s name :
  settings_getitem (length h) name (h ++ [s])%list
  = ((h ++ [s])%list, Ok (Settings.getitem s name)).
Proof. unfold settings_getitem. rewrite lookup_copy. reflexivity. Qed.

Lemma settings_set_copy (h : store) s name v prio :
  settings_set (length h) name v prio (h ++ [s])%list
  = ((h ++ [Settings.set s name v prio])%list, Ok tt).
Proof.
  unfold settings_set. rewrite lookup_copy. f_equal.
  rewrite insert_app_r_alt, Nat.sub_diag by lia. reflexivity.
Qed.

Lemma M_bind_eq {A B} (m : M A) (f : A -> M B) h :
  (m ≫= f) h
  = match m h with
    | (h', Ok a) => f a h'
    | (h', Raise e) => (h', Raise e)
    end.
Proof. reflexivity. Qed.

Lemma settings_or_not_configured_copy (h : store) s name d :
  _get_from_settings_or_not_configured (length h) name d (h ++ [s])%list
  = ((h ++ [s])%list,
     if py_truthy (Settings.get s name d)
     then Ok (Settings.get s name d) else Raise NotConfigured).
Proof.
  unfold _get_from_settings_or_not_configured.
  rewrite M_bind_eq, settings_get_copy.
  destruct (py_truthy (Settings.get s name d)); reflexivity.
Qed.

Lemma settings_or_environ_copy host (h : store) s name d :
  _get_from_settings_or_environ host (length h) name d (h ++ [s])%list
  = ((h ++ [s])%list,
     Ok (Settings.get s name (PStr (default d (environ host !! name))))).
Proof. unfold _get_from_settings_or_environ. apply settings_get_copy. Qed.

Lemma parent_init_copy host (h : store) s :
  exists r, FeedExporter___init__ host (length h) (h ++ [s])%list = ((h ++ [s])%list, r)
    /\ forall p, r = Ok p -> fst p = Settings.getitem s "FEED_URI".
Proof.
  unfold FeedExporter___init__.
  rewrite M_bind_eq, settings_getitem_copy.
  destruct (negb (py_truthy (Settings.getitem s "FEED_URI"))).
  { eexists; split; [reflexivity | discriminate]. }
  rewrite M_bind_eq, settings_getitem_copy.
  destruct (Settings.getitem s "FEED_FORMAT") as [| |f];
    try (eexists; split; [reflexivity | discriminate]).
  destruct (Settings.getitem s "FEED_URI") as [| |u];
    try (eexists; split; [reflexivity | discriminate]).
  destruct (negb (storage_supported host u));
    [eexists; split; [reflexivity | discriminate]|].
  destruct (negb (exporter_supported host (lower f)));
    [eexists; split; [reflexivity | discriminate]|].
  eexists; split; [reflexivity|]. intros p [= <-]. reflexivity.
Qed.

Lemma settings_get_set_ne s name name' v prio d :
  name <> name' ->
  Settings.get (Settings.set s name v prio) name' d = Settings.get s name' d.
Proof.
  intros Hne. unfold Settings.get, Settings.getitem, Settings.set.
  destruct (s !! name) as [a|].
  - destruct (Settings.priority a <=? prio); [|reflexivity].
    rewrite lookup_insert_ne by exact Hne. reflexivity.
  - rewrite lookup_insert_ne by exact Hne. reflexivity.
Qed.

(** The constructor leaves every settings object of the store as it was
    and adds one, the copy. *)
Lemma init_store host ref (h : store) :
  fst (__init__ host ref h) = h
  \/ exists s', fst (__init__ host ref h) = (h ++ [s'])%list.
Proof.
  unfold __init__. rewrite M_bind_eq. unfold deepcopy.
  destruct (h !! ref) as [s|]; [|left; reflexivity]. right.
  repeat (rewrite M_bind_eq, settings_or_not_configured_copy;
          match goal with
          | |- context [if py_truthy ?v then _ else _] => destruct (py_truthy v)
          end; [|eexists; reflexivity]).
  rewrite M_bind_eq, settings_set_copy.
  rewrite M_bind_eq, settings_set_copy.
  rewrite M_bind_eq.
  match goal with
  | |- context [FeedExporter___init__ host (length h) (h ++ [?s1])%list] =>
    destruct (parent_init_copy host h s1) as (r & -> & _)
  end.
  destruct r as [p|e]; [|eexists; reflexivity].
  rewrite M_bind_eq, settings_get_copy.
  repeat rewrite M_bind_eq, settings_or_environ_copy.
  eexists; reflexivity.
Qed.

Lemma init_constructed host ref (h h' : store) s self :
  h !! ref = Some s ->
  __init__ host ref h = (h', Ok self) ->
  constructed host s self.
Proof.
  intros Hs. unfold __init__. rewrite M_bind_eq, (deepcopy_spec _ _ _ Hs).
  rewrite M_bind_eq, settings_or_not_configured_copy.
  destruct (py_truthy (Settings.get s "CHUNKED_FEED_URI" PNone)) eqn:Huri;
    [|discriminate].
  rewrite M_bind_eq, settings_or_not_configured_copy.
  destruct (py_truthy (Settings.get s "CHUNKED_FEED_FORMAT" PNone)) eqn:Hfmt;
    [|discriminate].
  rewrite M_bind_eq, settings_or_not_configured_copy.
  destruct (py_truthy (Settings.get s "CHUNKED_FEED_ITEMS_PER_CHUNK" PNone)) eqn:Hipc;
    [|discriminate].
  rewrite M_bind_eq, settings_set_copy.
  rewrite M_bind_eq, settings_set_copy.
  rewrite M_bind_eq.
  match goal with
  | |- context [FeedExporter___init__ host (length h) (h ++ [?s1])%list] =>
    destruct (parent_init_copy host h s1) as (r & -> & _)
  end.
  destruct r as [p|e]; [|discriminate].
  rewrite M_bind_eq, settings_get_copy.
  repeat rewrite M_bind_eq, settings_or_environ_copy.
  intros [= _ <-].
  split; simpl; try reflexivity; try assumption;
    rewrite !settings_get_set_ne by discriminate; reflexivity.
Qed.

Lemma init_ref host ref (h h' : store) self :
  __init__ host ref h = (h', Ok self) -> exists s, h !! ref = Some s.
Proof.
  unfold __init__. rewrite M_bind_eq. unfold deepcopy.
  destruct (h !! ref) as [s|]; [eauto | discriminate].
Qed.

Lemma init_fresh host ref (h h' : store) self :
  __init__ host ref h = (h', Ok self) ->
  _chunk_number self = 1 /\ stored self = [] /\ slot self = None.
Proof.
  intros Hinit. destruct (init_ref _ _ _ _ _ Hinit) as (s & Hs).
  destruct (init_constructed _ _ _ _ _ _ Hs Hinit). auto.
Qed.

Lemma open_ok_always clock spider self :
  is_ok (open_spider (clock O) spider self) = true ->
  forall now, is_ok (open_spider now spider self) = true.
Proof.
  intros H now. rewrite <- H. apply open_spider_ok_config, same_config_refl.
Qed.

Lemma Forall_fmap_replicate {A B} (f : A -> B) (b : B) (l : list A) :
  Forall (fun a => f a = b) l -> f <$> l = replicate (length l) b.
Proof.
  induction 1 as [|a l Ha _ IH]; [reflexivity|].
  rewrite fmap_cons, IH, Ha. reflexivity.
Qed.

Lemma ceil_div_chunks t q c :
  0 < t -> 1 <= c <= t -> ceil_div (t * q + c) t = q + 1.
Proof.
  intros Ht Hc. unfold ceil_div. symmetry.
  apply (Z.div_unique_pos _ _ _ (c - 1)); lia.
Qed.

(** The records and the chunk numbers of a run that ended with the slot
    [s] open. *)
Lemma chunks_finished self s :
  chunks (finished self s) = ((exported <$> stored self) ++ [exported s])%list.
Proof. unfold chunks. simpl. rewrite fmap_app. reflexivity. Qed.

(** * The claims *)

(** ** The scenarios of the tests *)

Example format_chunk_1 :
  Template.format "export_%(chunk_number)02d.json" {[ "chunk_number" := PInt 1 ]}
  = Ok "export_01.json".
Proof. reflexivity. Qed.

Example format_mixed :
  Template.format "%(a)s-%(b)5d-%(c)s%%"
    (<["a" := PStr "x"]> (<["b" := PInt (-42)]> {[ "c" := PNone ]}))
  = Ok "x-  -42-None%".
Proof. reflexivity. Qed.

Example format_missing_key :
  Template.format "%(nokey)s" {[ "chunk_number" := PInt 1 ]} = Raise KeyError.
Proof. reflexivity. Qed.

Example strftime_default :
  strftime {| year := 2014; month := 5; day := 6; hour := 7; minute := 8; second := 9 |}
    "%Y-%m-%d-%H" = "2014-05-06-07".
Proof. reflexivity. Qed.
Example test_items_1_chunksize_1 : test_chunk_sizes 1 1 = Ok [1%nat].
Proof. vm_compute. reflexivity. Qed.

Example test_items_2_chunksize_1 : test_chunk_sizes 1 2 = Ok [1%nat; 1%nat].
Proof. vm_compute. reflexivity. Qed.

Example test_items_5_chunksize_3 : test_chunk_sizes 3 5 = Ok [3%nat; 2%nat].
Proof. vm_compute. reflexivity. Qed.

Example test_items_100_chunksize_25 :
  test_chunk_sizes 25 100 = Ok [25%nat; 25%nat; 25%nat; 25%nat].
Proof. vm_compute. reflexivity. Qed.

Example test_items_100_chunksize_24 :
  test_chunk_sizes 24 100 = Ok [24%nat; 24%nat; 24%nat; 24%nat; 4%nat].
Proof. vm_compute. reflexivity. Qed.

Example test_items_100_chunksize_26 :
  test_chunk_sizes 26 100 = Ok [26%nat; 26%nat; 26%nat; 22%nat].
Proof. vm_compute. reflexivity. Qed.

Example test_zero_feed_items_per_chunk : test_exporter (PInt 0) = Raise NotConfigured.
Proof. vm_compute. reflexivity. Qed.

Example test_no_feed_items_per_chunk : test_exporter PNone = Raise NotConfigured.
Proof. vm_compute. reflexivity. Qed.

(** ** C1: the partition property *)

(** C1, as the spec states it, fails for a run without records: the
    exporter of the tests with one item per chunk, started and stopped
    with no item, leaves the one chunk it opened at the start, empty,
    where the property asks for [ceil(0/1) = 0] chunks. *)
Lemma partition_fails_without_records :
  exists self final,
    test_exporter (PInt 1) = Ok self
    /\ run test_clock test_spider self [] = Ok final
    /\ chunks final = [[]]
    /\ ~ partition_property 1 [] (chunks final).
Proof.
  eexists. eexists. split; [vm_compute; reflexivity|].
  split; [vm_compute; reflexivity|].
  split; [reflexivity|].
  intros (Hlen & _). vm_compute in Hlen. discriminate.
Qed.

(** C1, amended: for every threshold [t > 0] and every run of at least
    one record, the constructed exporter, started, given the [n] records
    and finished, yields exactly [ceil(n/t)] chunks; each but the last
    holds exactly [t] records and the last holds [n - t*(ceil(n/t)-1)]
    records, a number in [1, t]. The run is one whose start succeeds: the
    address template resolves when the spider opens; it then resolves at
    every rotation and the run returns. *)
Theorem partition_of_records host ref (h h' : store) self t clock spider items :
  __init__ host ref h = (h', Ok self) ->
  _items_per_chunk self = PInt t ->
  0 < t ->
  is_ok (open_spider (clock O) spider self) = true ->
  items <> [] ->
  exists final,
    run clock spider self items = Ok final
    /\ partition_property t items (chunks final).
Proof.
  intros Hinit Hipc Ht Hopen Hne.
  destruct (init_fresh _ _ _ _ _ Hinit) as (Hn & Hst & _).
  destruct (run_filling spider self (open_ok_always clock spider self Hopen)
              t Ht Hipc clock items Hn Hst)
    as (self1 & s & Hrun & Hrunning & [Hfull Htot Hup Hlo]).
  exists (finished self1 s). split; [exact Hrun|].
  specialize (Hlo Hne).
  pose proof (run_count _ _ _ _ Hrunning) as Hcount.
  unfold partition_property. rewrite chunks_finished. cbv zeta.
  rewrite Htot, (ceil_div_chunks t _ (itemcount s) Ht) by lia.
  split; [|split].
  - rewrite length_app, length_fmap. simpl. lia.
  - rewrite fmap_app, <- list_fmap_compose. simpl.
    rewrite (Forall_fmap_replicate _ t (stored self1)) by exact Hfull.
    replace (Z.to_nat (Z.of_nat (length (stored self1)) + 1 - 1))
      with (length (stored self1)) by lia.
    do 2 f_equal. lia.
  - lia.
Qed.

(** The amended C1 on the run of [test_items_5_chunksize_2]. *)
Lemma partition_of_records_witness :
  exists final,
    run test_clock test_spider (test_constructed (PInt 2)) (generate 5) = Ok final
    /\ partition_property 2 (generate 5) (chunks final).
Proof.
  apply (partition_of_records test_host O [test_settings (PInt 2)]
           (test_store (PInt 2)) (test_constructed (PInt 2)) 2).
  - vm_compute. reflexivity.
  - reflexivity.
  - reflexivity.
  - vm_compute. reflexivity.
  - discriminate.
Defined.

(** ** C2: no cross-chunk leakage *)

(** C2: for every sequence of records submitted during a run, the
    records of chunk 1, chunk 2, ..., the last chunk, one after the other
    in write order, are the input sequence: each record went to exactly
    one chunk, once, in submission order. This holds for every value of
    the items-per-chunk setting the constructor accepts, for every run
    whose start succeeds (the address template resolves when the spider
    opens). *)
Theorem no_cross_chunk_leakage host ref (h h' : store) self clock spider items :
  __init__ host ref h = (h', Ok self) ->
  is_ok (open_spider (clock O) spider self) = true ->
  exists final,
    run clock spider self items = Ok final
    /\ concat (chunks final) = items.
Proof.
  intros Hinit Hopen.
  destruct (init_fresh _ _ _ _ _ Hinit) as (Hn & Hst & _).
  destruct (run_running spider self (open_ok_always clock spider self Hopen)
              clock items Hn Hst) as (self1 & s & Hrun & Hrunning).
  exists (finished self1 s). split; [exact Hrun|].
  rewrite chunks_finished, concat_app. simpl. rewrite app_nil_r.
  apply (run_records _ _ _ _ Hrunning).
Qed.

(** C2 on the run of [test_items_5_chunksize_2]. *)
Lemma no_cross_chunk_leakage_witness :
  exists final,
    run test_clock test_spider (test_constructed (PInt 2)) (generate 5) = Ok final
    /\ concat (chunks final) = generate 5.
Proof.
  apply (no_cross_chunk_leakage test_host O [test_settings (PInt 2)]
           (test_store (PInt 2)) (test_constructed (PInt 2))).
  - vm_compute. reflexivity.
  - vm_compute. reflexivity.
Defined.

(** ** C3: monotonic chunk numbering *)

(** C3, as the spec states it, fails for a run without records: the
    chunk opened at the start is given the number 1, where the numbers
    [1, ..., ceil(0/1)] are none. *)
Lemma numbering_fails_without_records :
  exists self final,
    test_exporter (PInt 1) = Ok self
    /\ run test_clock test_spider self [] = Ok final
    /\ chunk_numbers final = [Some (PInt 1)]
    /\ ~ monotonic_numbering 1 [] (chunk_numbers final).
Proof.
  eexists. eexists. split; [vm_compute; reflexivity|].
  split; [vm_compute; reflexivity|].
  split; [vm_compute; reflexivity|].
  intros H. vm_compute in H. discriminate.
Qed.

(** C3, amended: the chunk number starts at 1 and a run of at least one
    record with threshold [t > 0] assigns its chunks the numbers
    [1, 2, ..., ceil(n/t)], in this order: strictly increasing, without
    gap or reuse; the number the exporter ends with is the last one
    assigned. The run is one whose start succeeds. *)
Theorem chunk_numbers_of_records host ref (h h' : store) self t clock spider items :
  __init__ host ref h = (h', Ok self) ->
  _items_per_chunk self = PInt t ->
  0 < t ->
  is_ok (open_spider (clock O) spider self) = true ->
  items <> [] ->
  _chunk_number self = 1
  /\ exists final,
      run clock spider self items = Ok final
      /\ monotonic_numbering t items (chunk_numbers final)
      /\ _chunk_number final = ceil_div (Z.of_nat (length items)) t.
Proof.
  intros Hinit Hipc Ht Hopen Hne.
  destruct (init_fresh _ _ _ _ _ Hinit) as (Hn & Hst & _).
  split; [exact Hn|].
  destruct (run_filling spider self (open_ok_always clock spider self Hopen)
              t Ht Hipc clock items Hn Hst)
    as (self1 & s & Hrun & Hrunning & [Hfull Htot Hup Hlo]).
  exists (finished self1 s). split; [exact Hrun|].
  specialize (Hlo Hne).
  unfold monotonic_numbering, chunk_numbers.
  rewrite Htot, (ceil_div_chunks t _ (itemcount s) Ht) by lia.
  split.
  - simpl. rewrite (run_numbers _ _ _ _ Hrunning). f_equal. lia.
  - simpl. apply (run_number _ _ _ _ Hrunning).
Qed.

(** The amended C3 on the run of [test_items_5_chunksize_2]. *)
Lemma chunk_numbers_of_records_witness :
  _chunk_number (test_constructed (PInt 2)) = 1
  /\ exists final,
      run test_clock test_spider (test_constructed (PInt 2)) (generate 5) = Ok final
      /\ monotonic_numbering 2 (generate 5) (chunk_numbers final)
      /\ _chunk_number final = ceil_div (Z.of_nat (length (generate 5))) 2.
Proof.
  apply (chunk_numbers_of_records test_host O [test_settings (PInt 2)]
           (test_store (PInt 2)) (test_constructed (PInt 2)) 2).
  - vm_compute. reflexivity.
  - reflexivity.
  - reflexivity.
  - vm_compute. reflexivity.
  - discriminate.
Defined.

(** ** C4: rotation comes before the record that triggers it *)

(** C4: on every submit of a record to an exporter with the slot [s]
    open, a rotation is performed if and only if the items-per-chunk
    threshold is set and the item count of [s] has reached it. The
    rotation stores [s], advances the chunk number by 1, resolves the new
    address with it and opens a slot counting from 0, all before the
    record is written: the record is the first of the new slot. Without a
    rotation the record goes to [s] and nothing else changes. The address
    template is one that resolves for this exporter, so that the submit
    returns. *)
Theorem rotation_before_write now spider self s item :
  slot self = Some s ->
  is_ok (open_spider now spider self) = true ->
  let full := py_truthy (_items_per_chunk self)
              && py_int_ge (itemcount s) (_items_per_chunk self) in
  exists self',
    item_scraped now spider self item = Ok self'
    /\ (stored self' <> stored self <-> full = true)
    /\ if full
       then stored self' = (stored self ++ [s])%list
            /\ _chunk_number self' = _chunk_number self + 1
            /\ exists s',
                slot self' = Some s'
                /\ exported s' = [item]
                /\ itemcount s' = 1
                /\ uripar s' !! "chunk_number" = Some (PInt (_chunk_number self + 1))
                /\ match urifmt self with
                   | PStr template => Template.format template (uripar s') = Ok (uri s')
                   | _ => False
                   end
       else stored self' = stored self
            /\ _chunk_number self' = _chunk_number self
            /\ slot self' = Some (appended_slot s item).
Proof.
  intros Hs Hopen full.
  pose proof (chunk_is_full_open self s Hs) as Hfull. fold full in Hfull.
  destruct full.
  - destruct (item_scraped_full now spider self s item Hs Hfull Hopen)
      as (u & Hu & Hscr).
    exists (rotated now spider self s u item). split; [exact Hscr|].
    split; [split; [reflexivity|]|].
    + intros _ Heq. simpl in Heq.
      apply (f_equal length) in Heq. rewrite length_app in Heq. simpl in Heq. lia.
    + split; [reflexivity|]. split; [reflexivity|].
      exists (rotated_slot now spider self u item).
      repeat split.
      * unfold rotated_slot. cbn [uripar].
        unfold FeedExporter__get_uri_params, get_uri_parameters.
        rewrite lookup_insert_eq. reflexivity.
      * exact Hu.
  - exists (appended self s item).
    split; [apply item_scraped_not_full; assumption|].
    split; [|repeat split].
    split; [intros H; exfalso; apply H; reflexivity | discriminate].
Qed.

(** C4 on the third item of [test_items_5_chunksize_2], which finds two
    items in the open slot. *)
Lemma rotation_before_write_witness :
  exists self',
    item_scraped (test_clock 3) test_spider
      (with_slot (test_constructed (PInt 2))
         (Some {| uri := ".exports/export_test_01.json"; itemcount := 2;
                  exported := generate 2; uripar := ∅ |}))
      (FakeItem 3) = Ok self'
    /\ _chunk_number self' = 2
    /\ (exported <$> slot self') = Some [FakeItem 3].
Proof.
  destruct (rotation_before_write (test_clock 3) test_spider
              (with_slot (test_constructed (PInt 2))
                 (Some {| uri := ".exports/export_test_01.json"; itemcount := 2;
                          exported := generate 2; uripar := ∅ |}))
              {| uri := ".exports/export_test_01.json"; itemcount := 2;
                 exported := generate 2; uripar := ∅ |}
              (FakeItem 3) eq_refl)
    as (self' & Hscr & _ & _ & Hnum & s' & Hslot & Hexp & _).
  - vm_compute. reflexivity.
  - exists self'. split; [exact Hscr|]. split; [exact Hnum|].
    rewrite Hslot. simpl. rewrite Hexp. reflexivity.
Defined.

(** ** C5: the configuration gate *)

Lemma unset_or_empty_falsy v : unset_or_empty v -> py_truthy v = false.
Proof. intros [->|[->| ->]]; reflexivity. Qed.

(** C5, as the spec states it, fails for a negative items-per-chunk
    setting: with [-1] the constructor raises nothing and returns an
    exporter. *)
Lemma gate_passes_negative_items_per_chunk :
  Settings.get (test_settings (PInt (-1))) "CHUNKED_FEED_ITEMS_PER_CHUNK" PNone
  = PInt (-1)
  /\ test_exporter (PInt (-1)) = Ok (test_constructed (PInt (-1)))
  /\ test_exporter (PInt (-1)) <> Raise NotConfigured.
Proof.
  split; [vm_compute; reflexivity|].
  split; [vm_compute; reflexivity|].
  vm_compute. discriminate.
Qed.

(** With [-1] items per chunk every record finds its slot full: the chunk
    opened at the start stays empty and each record gets a chunk of its
    own. *)
Example negative_items_per_chunk_run : test_chunk_sizes (-1) 2 = Ok [0%nat; 1%nat; 1%nat].
Proof. vm_compute. reflexivity. Qed.

(** C5, amended: the constructor raises [NotConfigured] whenever the
    items-per-chunk setting is unset or zero, or the address template is
    unset or empty, or the feed format is unset or empty, whatever the
    other settings hold. No exporter comes to exist, so no slot is opened
    and no run proceeds; the store holds the untouched copy of the
    settings and nothing else new. *)
Theorem configuration_gate host ref (h : store) s :
  h !! ref = Some s ->
  unset_or_empty (Settings.get s "CHUNKED_FEED_URI" PNone)
  \/ unset_or_empty (Settings.get s "CHUNKED_FEED_FORMAT" PNone)
  \/ unset_or_empty (Settings.get s "CHUNKED_FEED_ITEMS_PER_CHUNK" PNone) ->
  __init__ host ref h = ((h ++ [s])%list, Raise NotConfigured).
Proof.
  intros Hs Hunset. unfold __init__.
  rewrite M_bind_eq, (deepcopy_spec _ _ _ Hs).
  rewrite M_bind_eq, settings_or_not_configured_copy.
  destruct (py_truthy (Settings.get s "CHUNKED_FEED_URI" PNone)) eqn:Huri;
    [|reflexivity].
  rewrite M_bind_eq, settings_or_not_configured_copy.
  destruct (py_truthy (Settings.get s "CHUNKED_FEED_FORMAT" PNone)) eqn:Hfmt;
    [|reflexivity].
  rewrite M_bind_eq, settings_or_not_configured_copy.
  destruct (py_truthy (Settings.get s "CHUNKED_FEED_ITEMS_PER_CHUNK" PNone)) eqn:Hipc;
    [|reflexivity].
  destruct Hunset as [H|[H|H]]; apply unset_or_empty_falsy in H; congruence.
Qed.

(** The amended C5 on [test_zero_feed_items_per_chunk]. *)
Lemma configuration_gate_witness :
  __init__ test_host O [test_settings (PInt 0)]
  = ([test_settings (PInt 0); test_settings (PInt 0)], Raise NotConfigured).
Proof.
  apply (configuration_gate test_host O [test_settings (PInt 0)]
           (test_settings (PInt 0))).
  - reflexivity.
  - right. right. right. left. vm_compute. reflexivity.
Defined.

(** ** C6: the timestamp parameter *)

(** Every call of [get_uri_parameters] renders the time of the call, and
    renders it with the default format: [_timestamp_format] is not read. *)
Lemma timestamp_rendered_with_default self now params :
  get_uri_parameters self now params !! "timestamp"
  = Some (PStr (strftime now DEFAULT_TIMESTAMP_FORMAT)).
Proof. unfold get_uri_parameters. simplify_map_eq. reflexivity. Qed.

(** C6 on the test settings with [CHUNKED_FEED_TIMESTAMP_FORMAT = '%Y']:
    the constructor keeps the format, and the timestamp parameter is
    rendered with ['%Y-%m-%d-%H'] all the same, not with ['%Y']. *)
Lemma timestamp_format_setting_not_used :
  exists h self,
    __init__ test_host O [test_settings_year] = (h, Ok self)
    /\ _timestamp_format self = PStr "%Y"
    /\ strftime (test_clock 0) "%Y" = "2014"
    /\ FeedExporter__get_uri_params self (test_clock 0) test_spider !! "timestamp"
       = Some (PStr "2014-05-06-07").
Proof.
  eexists. eexists. split; [vm_compute; reflexivity|].
  split; [reflexivity|]. split; vm_compute; reflexivity.
Qed.

(** ** C7: address resolution is deterministic *)

(** C7: the address a slot is opened at is a function of the template,
    the chunk number, the job, the project id, the attributes of the
    spider and the clock. Two resolutions that agree on these build the
    same parameter mapping and the same address, or fail alike, whatever
    else the two exporters hold. *)
Theorem address_resolution_deterministic a b now spider :
  urifmt a = urifmt b ->
  _chunk_number a = _chunk_number b ->
  _scrapy_job a = _scrapy_job b ->
  _scrapy_project_id a = _scrapy_project_id b ->
  FeedExporter__get_uri_params a now spider = FeedExporter__get_uri_params b now spider
  /\ opened_uri (open_spider now spider a) = opened_uri (open_spider now spider b).
Proof.
  intros Hu Hn Hj Hp.
  assert (Hparams : FeedExporter__get_uri_params a now spider
                    = FeedExporter__get_uri_params b now spider).
  { unfold FeedExporter__get_uri_params, get_uri_parameters.
    rewrite Hn, Hj, Hp. reflexivity. }
  split; [exact Hparams|].
  unfold open_spider. rewrite Hparams, Hu.
  destruct (urifmt b) as [| |template]; try reflexivity.
  destruct (Template.format template _); reflexivity.
Qed.

(** C7 on the exporter of the tests before and after three items went to
    its slot: the same address both times. *)
Lemma address_resolution_deterministic_witness :
  opened_uri (open_spider (test_clock 0) test_spider (test_constructed (PInt 5)))
  = opened_uri
      (open_spider (test_clock 0) test_spider
         (with_slot (test_constructed (PInt 7))
            (Some {| uri := "elsewhere"; itemcount := 3;
                     exported := generate 3; uripar := ∅ |}))).
Proof.
  apply (address_resolution_deterministic
           (test_constructed (PInt 5))
           (with_slot (test_constructed (PInt 7))
              (Some {| uri := "elsewhere"; itemcount := 3;
                       exported := generate 3; uripar := ∅ |}))
           (test_clock 0) test_spider); reflexivity.
Defined.

(** ** C8: job and project id *)

(** C8: the constructor takes the job, the project and the project id
    from the settings, else from the environment, else the defaults
    ["nojob"], ["noproject"] and ["noprojectid"]. They stay as they are
    through a whole run, and the parameter mapping of every chunk carries
    the job and the project id of the construction. The run is one whose
    start succeeds. *)
Theorem job_and_project_fixed host ref (h h' : store) s self clock spider items :
  h !! ref = Some s ->
  __init__ host ref h = (h', Ok self) ->
  is_ok (open_spider (clock O) spider self) = true ->
  _scrapy_job self
  = Settings.get s "SCRAPY_JOB" (PStr (default "nojob" (environ host !! "SCRAPY_JOB")))
  /\ _scrapy_project self
     = Settings.get s "SCRAPY_PROJECT"
         (PStr (default "noproject" (environ host !! "SCRAPY_PROJECT")))
  /\ _scrapy_project_id self
     = Settings.get s "SCRAPY_PROJECT_ID"
         (PStr (default "noprojectid" (environ host !! "SCRAPY_PROJECT_ID")))
  /\ exists final,
      run clock spider self items = Ok final
      /\ _scrapy_job final = _scrapy_job self
      /\ _scrapy_project final = _scrapy_project self
      /\ _scrapy_project_id final = _scrapy_project_id self
      /\ Forall (fun chunk =>
                   uripar chunk !! "scrapy_job" = Some (_scrapy_job self)
                   /\ uripar chunk !! "scrapy_project_id"
                      = Some (_scrapy_project_id self))
                (stored final).
Proof.
  intros Hs Hinit Hopen.
  destruct (init_constructed _ _ _ _ _ _ Hs Hinit).
  do 3 (split; [assumption|]).
  destruct (run_running spider self (open_ok_always clock spider self Hopen)
              clock items con_number0 con_stored0)
    as (self1 & s1 & Hrun & Hrunning).
  exists (finished self1 s1). split; [exact Hrun|].
  destruct Hrunning. destruct run_config0. simpl.
  repeat split; try (symmetry; assumption). exact run_identity0.
Qed.

(** C8 on the run of [test_items_5_chunksize_2], where neither settings
    nor environment name a job. *)
Lemma job_and_project_fixed_witness :
  _scrapy_job (test_constructed (PInt 2)) = PStr "nojob"
  /\ exists final,
      run test_clock test_spider (test_constructed (PInt 2)) (generate 5) = Ok final
      /\ Forall (fun chunk =>
                   uripar chunk !! "scrapy_job" = Some (PStr "nojob")
                   /\ uripar chunk !! "scrapy_project_id" = Some (PStr "noprojectid"))
                (stored final).
Proof.
  destruct (job_and_project_fixed test_host O [test_settings (PInt 2)]
              (test_store (PInt 2)) (test_settings (PInt 2))
              (test_constructed (PInt 2)) test_clock test_spider (generate 5))
    as (_ & _ & _ & final & Hrun & _ & _ & _ & Hall).
  - reflexivity.
  - vm_compute. reflexivity.
  - vm_compute. reflexivity.
  - split; [reflexivity|]. exists final. split; [exact Hrun | exact Hall].
Defined.

(** ** C9: a run without records *)

(** C9: a run that starts and finishes without a record never rotates:
    the chunk number stays 1 and the only chunk is the one opened at the
    start, which is empty. The run is one whose start succeeds. *)
Theorem run_without_records host ref (h h' : store) self clock spider :
  __init__ host ref h = (h', Ok self) ->
  is_ok (open_spider (clock O) spider self) = true ->
  exists final,
    run clock spider self [] = Ok final
    /\ (length (chunks final) <= 1)%nat
    /\ chunks final = [[]]
    /\ chunk_numbers final = [Some (PInt 1)]
    /\ _chunk_number final = 1.
Proof.
  intros Hinit Hopen.
  destruct (init_fresh _ _ _ _ _ Hinit) as (Hn & Hst & _).
  destruct (is_ok_true _ Hopen) as (self1 & Hopen1).
  unfold run. rewrite Hopen1. cbn [mbind result_bind add_items].
  apply open_spider_inv in Hopen1 as (u & ->).
  eexists. split; [reflexivity|]. unfold chunks, chunk_numbers. simpl.
  rewrite Hst, Hn. simpl.
  repeat split; [lia|].
  unfold FeedExporter__get_uri_params, get_uri_parameters.
  rewrite lookup_insert_eq, Hn. reflexivity.
Qed.

(** C9 on [test_items_0]. *)
Lemma run_without_records_witness :
  exists final,
    run test_clock test_spider (test_constructed (PInt 1)) [] = Ok final
    /\ (length (chunks final) <= 1)%nat
    /\ chunks final = [[]]
    /\ chunk_numbers final = [Some (PInt 1)]
    /\ _chunk_number final = 1.
Proof.
  apply (run_without_records test_host O [test_settings (PInt 1)]
           (test_store (PInt 1)) (test_constructed (PInt 1))).
  - vm_compute. reflexivity.
  - vm_compute. reflexivity.
Defined.

(** ** C10: the settings of the caller *)

(** C10: the constructor works on a copy of the settings. Whether it
    returns or raises, every settings object that was in the store is
    left with the entries it had, the one passed in among them; the
    overrides of [FEED_URI] and [FEED_FORMAT] go to the copy. *)
Theorem constructor_keeps_caller_settings host ref (h : store) :
  take (length h) (fst (__init__ host ref h)) = h
  /\ fst (__init__ host ref h) !! ref = h !! ref.
Proof.
  assert (Htake : take (length h) (fst (__init__ host ref h)) = h).
  { destruct (init_store host ref h) as [->|(s' & ->)].
    - apply firstn_all.
    - apply take_app_length. }
  split; [exact Htake|].
  destruct (h !! ref) as [s|] eqn:Hs.
  - rewrite <- Htake in Hs. rewrite lookup_take_Some in Hs. apply Hs.
  - unfold __init__. rewrite M_bind_eq. unfold deepcopy. rewrite Hs. exact Hs.
Qed.

(** In the test setting the settings passed in have no [FEED_URI] after
    the construction, and the copy the exporter holds has the chunked
    one. *)
Example constructor_overrides_the_copy :
  exists s s' self,
    test_store (PInt 1) !! O = Some s
    /\ test_exporter (PInt 1) = Ok self
    /\ test_store (PInt 1) !! settings self = Some s'
    /\ s = test_settings (PInt 1)
    /\ Settings.getitem s "FEED_URI" = PNone
    /\ Settings.getitem s' "FEED_URI" = PStr EXPORT_FILE_PATTERN
    /\ Settings.getitem s' "FEED_FORMAT" = PStr "json".
Proof.
  eexists. eexists. eexists.
  split; [vm_compute; reflexivity|].
  split; [vm_compute; reflexivity|].
  split; [vm_compute; reflexivity|].
  repeat split; vm_compute; reflexivity.
Qed.

(** * Texts and templates *)

(** A pair is its first component and its second. *)
Lemma pair_of_snd {A B} (p : A * B) (b : B) : snd p = b -> p = (fst p, b).
Proof. intros <-. destruct p; reflexivity. Qed.

Lemma append_cons c (s1 s2 : string) : String c s1 +:+ s2 = String c (s1 +:+ s2).
Proof. reflexivity. Qed.

Lemma append_nil_l (s : string) : "" +:+ s = s.
Proof. reflexivity. Qed.

Lemma append_nil_r (s : string) : s +:+ "" = s.
Proof. induction s as [|c s IH]; [reflexivity|]. rewrite append_cons, IH. reflexivity. Qed.

Lemma append_assoc (s1 s2 s3 : string) : (s1 +:+ s2) +:+ s3 = s1 +:+ (s2 +:+ s3).
Proof.
  induction s1 as [|c s1 IH]; [reflexivity|].
  rewrite !append_cons, IH. reflexivity.
Qed.

Lemma append_length (s1 s2 : string) :
  String.length (s1 +:+ s2) = (String.length s1 + String.length s2)%nat.
Proof.
  induction s1 as [|c s1 IH]; [reflexivity|].
  rewrite append_cons. simpl. rewrite IH. reflexivity.
Qed.

Lemma append_inj_r (s1 s2 post : string) : s1 +:+ post = s2 +:+ post -> s1 = s2.
Proof.
  revert s2. induction s1 as [|c s1 IH]; intros [|c' s2] H.
  - reflexivity.
  - apply (f_equal String.length) in H. rewrite !append_length in H. simpl in H. lia.
  - apply (f_equal String.length) in H. rewrite !append_length in H. simpl in H. lia.
  - rewrite !append_cons in H. injection H as -> H. f_equal. apply IH, H.
Qed.

Module TemplateText.
Import Template.

(** A text without [%] goes to the output as it is. *)
Lemma go_text p lit : 
  percent_free lit = true ->
  forall out rest, go p Text out (lit +:+ rest) = go p Text (out +:+ lit) rest.
Proof.
  induction lit as [|c lit IH]; intros Hpf out rest.
  - rewrite append_nil_l, append_nil_r. reflexivity.
  - simpl in Hpf. apply andb_true_iff in Hpf as [Hc Hpf].
    rewrite append_cons. cbn [go].
    destruct (Ascii.eqb c "%"); [discriminate|].
    rewrite (IH Hpf), append_assoc. reflexivity.
Qed.

(** A key without parentheses is read up to its closing parenthesis and
    looked up. *)
Lemma go_key p key :
  paren_free key = true ->
  forall acc out rest,
    go p (Key acc 0) out (key +:+ String ")" rest)
    = match p !! (acc +:+ key) with
      | Some v => go p (Spec v false None) out rest
      | None => Raise KeyError
      end.
Proof.
  induction key as [|c key IH]; intros Hpf acc out rest.
  - rewrite append_nil_l, append_nil_r. reflexivity.
  - simpl in Hpf. apply andb_true_iff in Hpf as [Hc Hpf].
    apply andb_true_iff in Hc as [Hopen Hclose].
    rewrite append_cons. cbn [go].
    destruct (Ascii.eqb c ")"); [discriminate|].
    destruct (Ascii.eqb c "("); [discriminate|].
    rewrite (IH Hpf), append_assoc. reflexivity.
Qed.

(** A placeholder after a text without [%]. *)
Lemma go_placeholder p pre key rest out :
  percent_free pre = true ->
  paren_free key = true ->
  go p Text out (pre +:+ "%(" +:+ key +:+ String ")" rest)
  = match p !! key with
    | Some v => go p (Spec v false None) (out +:+ pre) rest
    | None => Raise KeyError
    end.
Proof.
  intros Hpre Hkey. rewrite (go_text p pre Hpre).
  change ("%(" +:+ key +:+ String ")" rest)
    with (String "%" (String "(" (key +:+ String ")" rest))).
  cbn [go]. change (Ascii.eqb "%" "%") with true. cbn iota.
  change (Ascii.eqb "(" "%") with false. change (Ascii.eqb "(" "(") with true.
  cbn iota. rewrite (go_key p key Hkey). rewrite append_nil_l. reflexivity.
Qed.

(** [%(key)02d] on an integer, between two texts without [%]. *)
Lemma format_02d p pre key post n :
  percent_free pre = true ->
  paren_free key = true ->
  percent_free post = true ->
  p !! key = Some (PInt n) ->
  format (pre +:+ "%(" +:+ key +:+ ")02d" +:+ post) p
  = Ok (pre +:+ render_int true 2 n +:+ post).
Proof.
  intros Hpre Hkey Hpost Hn. unfold format.
  change (")02d" +:+ post) with (String ")" ("02d" +:+ post)).
  rewrite (go_placeholder p pre key _ "" Hpre Hkey), Hn.
  change ("02d" +:+ post) with (String "0" (String "2" (String "d" post))).
  cbn [go]. change (is_digit "0") with (Some O). cbn iota.
  change (is_digit "2") with (Some 2%nat). cbn iota.
  change (is_digit "d") with (@None nat). cbn iota.
  change (convert "d" (PInt n) true (default O (Some 2%nat)))
    with (Ok (render_int true 2 n)).
  cbn [mbind result_bind].
  rewrite <- (append_nil_r post) at 1.
  rewrite (go_text p post Hpost). rewrite append_nil_l, append_assoc. reflexivity.
Qed.

End TemplateText.

(** ** Runs, step by step *)

Lemma run_started clock spider self items :
  run clock spider self items = started clock spider self items ≫= close_spider.
Proof.
  unfold run, started. destruct (open_spider (clock O) spider self); reflexivity.
Qed.

(** What one item does to an open exporter: it goes to the open slot, or
    to a new one after a rotation. *)
Lemma item_scraped_cases now spider self s item :
  slot self = Some s ->
  is_ok (open_spider now spider self) = true ->
  (slot_is_full self s = false
   /\ item_scraped now spider self item = Ok (appended self s item))
  \/ (slot_is_full self s = true
      /\ exists u,
          resolves (urifmt self)
            (FeedExporter__get_uri_params
               (with_chunk_number self (_chunk_number self + 1)) now spider) u
          /\ item_scraped now spider self item = Ok (rotated now spider self s u item)).
Proof.
  intros Hs Hopen.
  pose proof (chunk_is_full_open self s Hs) as Hfull.
  fold (slot_is_full self s) in Hfull.
  destruct (slot_is_full self s).
  - right. split; [reflexivity|].
    destruct (item_scraped_full now spider self s item Hs Hfull Hopen)
      as (u & Hu & Hscr).
    exists u. split; [exact Hu | exact Hscr].
  - left. split; [reflexivity|]. apply item_scraped_not_full; assumption.
Qed.

(** A property of the open exporter that the opening establishes and
    that both outcomes of an item preserve holds after every run. *)
Lemma started_invariant
  (P : list Item -> ChunkedFeedExporter -> SpiderSlot -> Prop)
  clock spider self0 :
  (forall now, is_ok (open_spider now spider self0) = true) ->
  _chunk_number self0 = 1 ->
  stored self0 = [] ->
  (forall self s,
      open_spider (clock O) spider self0 = Ok self ->
      slot self = Some s -> P [] self s) ->
  (forall done self s item,
      running self0 done self s -> P done self s ->
      slot_is_full self s = false ->
      P (done ++ [item])%list (appended self s item) (appended_slot s item)) ->
  (forall now done self s u item,
      running self0 done self s -> P done self s ->
      slot_is_full self s = true ->
      resolves (urifmt self)
        (FeedExporter__get_uri_params
           (with_chunk_number self (_chunk_number self + 1)) now spider) u ->
      P (done ++ [item])%list (rotated now spider self s u item)
        (rotated_slot now spider self u item)) ->
  forall items,
    exists self s,
      started clock spider self0 items = Ok self
      /\ running self0 items self s
      /\ P items self s.
Proof.
  intros Hopen Hn Hst Hinit Happ Hrot items. unfold started.
  destruct (is_ok_true _ (Hopen (clock O))) as (self1 & Hopen1).
  destruct (running_opened spider self0 _ _ Hn Hst Hopen1) as (s1 & Hrun1).
  pose proof (Hinit self1 s1 Hopen1 (run_slot _ _ _ _ Hrun1)) as HP1.
  destruct (add_items_invariant
              (fun done self => exists s, running self0 done self s /\ P done self s)
              clock spider) with (items := items) (k := 1%nat) (done := @nil Item)
                                 (self := self1)
    as (self2 & Hadd & s2 & Hrun2 & HP2).
  - intros now done self item (s & Hrun & HP).
    assert (Ho : is_ok (open_spider now spider self) = true).
    { rewrite <- (Hopen now). symmetry. apply open_spider_ok_config.
      apply (run_config _ _ _ _ Hrun). }
    destruct (item_scraped_cases now spider self s item (run_slot _ _ _ _ Hrun) Ho)
      as [(Hfull & Hscr)|(Hfull & u & Hu & Hscr)].
    + eexists. split; [exact Hscr|]. eexists. split.
      * apply running_appended. exact Hrun.
      * apply Happ; assumption.
    + eexists. split; [exact Hscr|]. eexists. split.
      * apply running_rotated. exact Hrun.
      * apply Hrot; assumption.
  - eauto.
  - exists self2, s2. rewrite Hopen1. cbn [mbind result_bind].
    split; [exact Hadd|]. split; assumption.
Qed.

Lemma run_of_started clock spider self0 items self s :
  started clock spider self0 items = Ok self ->
  slot self = Some s ->
  run clock spider self0 items = Ok (finished self s).
Proof.
  intros Hst Hs. rewrite run_started, Hst. cbn [mbind result_bind].
  unfold close_spider. rewrite Hs. reflexivity.
Qed.

(** * Further properties of the exporter *)

(** ** X1: a run fails at its start or not at all *)



(** ** X2: an item before the spider is opened *)

(** X2: the constructor opens no slot, and [item_scraped] on the
    exporter it returns raises [AttributeError]: there is no [slot] to
    count or to write to. *)
Theorem item_scraped_before_open host ref (h h' : store) self now spider item :
  __init__ host ref h = (h', Ok self) ->
  slot self = None
  /\ item_scraped now spider self item = Raise AttributeError.
Proof.
  intros Hinit. destruct (init_ref _ _ _ _ _ Hinit) as (s & Hs).
  pose proof (init_constructed _ _ _ _ _ _ Hs Hinit) as Hc.
  split; [apply (con_slot _ _ _ Hc)|].
  unfold item_scraped, chunk_is_full.
  rewrite (con_items_set _ _ _ Hc), (con_slot _ _ _ Hc). reflexivity.
Qed.

(** X2 on the exporter of the tests. *)
Lemma item_scraped_before_open_witness :
  slot (test_constructed (PInt 2)) = None
  /\ item_scraped (test_clock 1) test_spider (test_constructed (PInt 2)) (FakeItem 1)
     = Raise AttributeError.
Proof.
  apply (item_scraped_before_open test_host O [test_settings (PInt 2)]
           (test_store (PInt 2)) (test_constructed (PInt 2))).
  apply pair_of_snd. vm_compute. reflexivity.
Defined.

(** ** X3: the open slot during a run *)

(** X3: with [t > 0] items per chunk, after any number of records and
    before the spider closes, every stored slot holds exactly [t] records
    and the open slot at most [t], and at least one once a record was
    scraped: a full slot is rotated when the next record arrives, not
    before. The count of the open slot is the number of its records. *)
Theorem open_slot_never_overfull host ref (h h' : store) self t clock spider items :
  __init__ host ref h = (h', Ok self) ->
  _items_per_chunk self = PInt t ->
  0 < t ->
  is_ok (open_spider (clock O) spider self) = true ->
  exists mid s,
    started clock spider self items = Ok mid
    /\ slot mid = Some s
    /\ Forall (fun s' => Z.of_nat (length (exported s')) = t) (stored mid)
    /\ itemcount s = Z.of_nat (length (exported s))
    /\ itemcount s <= t
    /\ (items <> [] -> 1 <= itemcount s)
    /\ Z.of_nat (length items) = t * Z.of_nat (length (stored mid)) + itemcount s.
Proof.
  intros Hinit Hipc Ht Hopen.
  destruct (init_fresh _ _ _ _ _ Hinit) as (Hn & Hst & _).
  destruct (started_invariant (filling t) clock spider self
              (open_ok_always clock spider self Hopen) Hn Hst)
    with (items := items) as (mid & s & Hstarted & Hrun & [Hfull Htot Hup Hlo]).
  - intros self1 s1 Hopen1 Hs1. apply open_spider_inv in Hopen1 as (u & ->).
    simpl in Hs1. injection Hs1 as <-.
    split; simpl; rewrite ?Hst; simpl; try lia; [constructor | congruence].
  - intros done self1 s1 item Hrun [Hfull Htot Hup Hlo] Hnot.
    pose proof (run_count _ _ _ _ Hrun) as Hcount.
    unfold slot_is_full in Hnot.
    rewrite <- (cfg_items_per_chunk _ _ (run_config _ _ _ _ Hrun)), Hipc in Hnot.
    simpl in Hnot.
    replace (t =? 0) with false in Hnot by (symmetry; apply Z.eqb_neq; lia).
    simpl in Hnot. apply Z.leb_gt in Hnot.
    split; simpl; [exact Hfull | rewrite length_app; simpl; lia | lia | lia].
  - intros now done self1 s1 u item Hrun [Hfull Htot Hup Hlo] Hyes _.
    pose proof (run_count _ _ _ _ Hrun) as Hcount.
    unfold slot_is_full in Hyes.
    rewrite <- (cfg_items_per_chunk _ _ (run_config _ _ _ _ Hrun)), Hipc in Hyes.
    simpl in Hyes.
    replace (t =? 0) with false in Hyes by (symmetry; apply Z.eqb_neq; lia).
    simpl in Hyes. apply Z.leb_le in Hyes.
    split; simpl.
    + rewrite Forall_app, Forall_singleton. split; [exact Hfull | lia].
    + rewrite !length_app. simpl. lia.
    + lia.
    + lia.
  - exists mid, s. split; [exact Hstarted|].
    split; [apply (run_slot _ _ _ _ Hrun)|].
    split; [exact Hfull|]. split; [apply (run_count _ _ _ _ Hrun)|].
    repeat split; assumption.
Qed.

(** X3 after exactly four records with two per chunk: one slot stored,
    the second still open and full. *)
Lemma open_slot_never_overfull_witness :
  exists mid s,
    started test_clock test_spider (test_constructed (PInt 2)) (generate 4) = Ok mid
    /\ slot mid = Some s
    /\ Forall (fun s' => Z.of_nat (length (exported s')) = 2) (stored mid)
    /\ itemcount s = Z.of_nat (length (exported s))
    /\ itemcount s <= 2
    /\ (generate 4 <> [] -> 1 <= itemcount s)
    /\ Z.of_nat (length (generate 4)) = 2 * Z.of_nat (length (stored mid)) + itemcount s.
Proof.
  apply (open_slot_never_overfull test_host O [test_settings (PInt 2)]
           (test_store (PInt 2)) (test_constructed (PInt 2)) 2).
  - apply pair_of_snd. vm_compute. reflexivity.
  - reflexivity.
  - reflexivity.
  - vm_compute. reflexivity.
Defined.

(** ** X4: chunk numbers for every accepted setting *)

(** X4: whatever items-per-chunk value the constructor accepted and
    however many records the run has, none included, the chunks of a
    finished run carry the numbers 1 to the number of chunks, in order,
    and the exporter ends with the number of the last chunk. *)
Theorem chunk_numbers_count_chunks host ref (h h' : store) self clock spider items :
  __init__ host ref h = (h', Ok self) ->
  is_ok (open_spider (clock O) spider self) = true ->
  exists final,
    run clock spider self items = Ok final
    /\ chunk_numbers final = numbers_from_1 (length (chunks final))
    /\ _chunk_number final = Z.of_nat (length (chunks final)).
Proof.
  intros Hinit Hopen.
  destruct (init_fresh _ _ _ _ _ Hinit) as (Hn & Hst & _).
  destruct (run_running spider self (open_ok_always clock spider self Hopen)
              clock items Hn Hst) as (self1 & s & Hrun & Hrunning).
  exists (finished self1 s). split; [exact Hrun|].
  rewrite chunks_finished, length_app, length_fmap. simpl.
  rewrite Nat.add_1_r. unfold chunk_numbers. simpl.
  split; [apply (run_numbers _ _ _ _ Hrunning)|].
  rewrite (run_number _ _ _ _ Hrunning). lia.
Qed.

(** X4 on a run with [-1] items per chunk. *)
Lemma chunk_numbers_count_chunks_witness :
  exists final,
    run test_clock test_spider (test_constructed (PInt (-1))) (generate 2) = Ok final
    /\ chunk_numbers final = numbers_from_1 (length (chunks final))
    /\ _chunk_number final = Z.of_nat (length (chunks final)).
Proof.
  apply (chunk_numbers_count_chunks test_host O [test_settings (PInt (-1))]
           (test_store (PInt (-1))) (test_constructed (PInt (-1)))).
  - apply pair_of_snd. vm_compute. reflexivity.
  - vm_compute. reflexivity.
Defined.

(** ** X5: a negative number of items per chunk *)

(** X5: the constructor accepts a negative items-per-chunk value, and
    with it every record finds the open slot full: the chunk opened at
    the start stays empty and each record is alone in a chunk of its
    own. *)
Theorem negative_items_per_chunk host ref (h h' : store) self t clock spider items :
  __init__ host ref h = (h', Ok self) ->
  _items_per_chunk self = PInt t ->
  t < 0 ->
  is_ok (open_spider (clock O) spider self) = true ->
  exists final,
    run clock spider self items = Ok final
    /\ chunks final = one_chunk_each items.
Proof.
  intros Hinit Hipc Ht Hopen.
  destruct (init_fresh _ _ _ _ _ Hinit) as (Hn & Hst & _).
  destruct (started_invariant
              (fun done self1 s =>
                 ((exported <$> stored self1) ++ [exported s])%list
                 = one_chunk_each done)
              clock spider self
              (open_ok_always clock spider self Hopen) Hn Hst)
    with (items := items) as (mid & s & Hstarted & Hrun & Hchunks).
  - intros self1 s1 Hopen1 Hs1. apply open_spider_inv in Hopen1 as (u & ->).
    simpl in Hs1. injection Hs1 as <-. simpl. rewrite Hst. reflexivity.
  - intros done self1 s1 item Hrun _ Hnot. exfalso.
    pose proof (run_count _ _ _ _ Hrun) as Hcount.
    unfold slot_is_full in Hnot.
    rewrite <- (cfg_items_per_chunk _ _ (run_config _ _ _ _ Hrun)), Hipc in Hnot.
    simpl in Hnot.
    replace (t =? 0) with false in Hnot by (symmetry; apply Z.eqb_neq; lia).
    simpl in Hnot. apply Z.leb_gt in Hnot. lia.
  - intros now done self1 s1 u item Hrun HP _ _. simpl.
    rewrite fmap_app. simpl. rewrite HP. unfold one_chunk_each.
    rewrite fmap_app. reflexivity.
  - exists (finished mid s).
    split; [apply (run_of_started _ _ _ _ _ _ Hstarted (run_slot _ _ _ _ Hrun))|].
    rewrite chunks_finished. exact Hchunks.
Qed.

(** X5 on the test setting with [-1] items per chunk and two records. *)
Lemma negative_items_per_chunk_witness :
  exists final,
    run test_clock test_spider (test_constructed (PInt (-1))) (generate 2) = Ok final
    /\ chunks final = one_chunk_each (generate 2).
Proof.
  apply (negative_items_per_chunk test_host O [test_settings (PInt (-1))]
           (test_store (PInt (-1))) (test_constructed (PInt (-1))) (-1)).
  - apply pair_of_snd. vm_compute. reflexivity.
  - reflexivity.
  - reflexivity.
  - vm_compute. reflexivity.
Defined.

(** ** X6, X7: what the constructor builds *)

Lemma settings_set_lookup_ne (s : Settings.t) name name' v prio :
  name <> name' -> Settings.set s name v prio !! name' = s !! name'.
Proof.
  intros Hne. unfold Settings.set.
  destruct (s !! name) as [a|].
  - destruct (Settings.priority a <=? prio); [|reflexivity].
    apply lookup_insert_ne, Hne.
  - apply lookup_insert_ne, Hne.
Qed.

Lemma settings_getitem_set_ne (s : Settings.t) name name' v prio :
  name <> name' ->
  Settings.getitem (Settings.set s name v prio) name' = Settings.getitem s name'.
Proof.
  intros Hne. unfold Settings.getitem.
  rewrite settings_set_lookup_ne by exact Hne. reflexivity.
Qed.

Lemma settings_getitem_set_eq (s : Settings.t) name v prio :
  (forall a, s !! name = Some a -> Settings.priority a <= prio) ->
  Settings.getitem (Settings.set s name v prio) name = v.
Proof.
  intros Hprio. unfold Settings.getitem, Settings.set.
  destruct (s !! name) as [a|] eqn:Ha.
  - specialize (Hprio a eq_refl). apply Z.leb_le in Hprio. rewrite Hprio.
    rewrite lookup_insert_eq. reflexivity.
  - rewrite lookup_insert_eq. reflexivity.
Qed.

(** The store and the reference a returning constructor leaves. *)
Lemma init_copy host ref (h h' : store) s self :
  h !! ref = Some s ->
  __init__ host ref h = (h', Ok self) ->
  settings self = length h
  /\ h' = (h ++ [Settings.set
                   (Settings.set s "FEED_URI"
                      (Settings.get s "CHUNKED_FEED_URI" PNone) 100)
                   "FEED_FORMAT"
                   (Settings.get s "CHUNKED_FEED_FORMAT" PNone) 100])%list.
Proof.
  intros Hs. unfold __init__. rewrite M_bind_eq, (deepcopy_spec _ _ _ Hs).
  rewrite M_bind_eq, settings_or_not_configured_copy.
  destruct (py_truthy (Settings.get s "CHUNKED_FEED_URI" PNone)); [|discriminate].
  rewrite M_bind_eq, settings_or_not_configured_copy.
  destruct (py_truthy (Settings.get s "CHUNKED_FEED_FORMAT" PNone)); [|discriminate].
  rewrite M_bind_eq, settings_or_not_configured_copy.
  destruct (py_truthy (Settings.get s "CHUNKED_FEED_ITEMS_PER_CHUNK" PNone));
    [|discriminate].
  rewrite M_bind_eq, settings_set_copy.
  rewrite M_bind_eq, settings_set_copy.
  rewrite M_bind_eq.
  match goal with
  | |- context [FeedExporter___init__ host (length h) (h ++ [?s1])%list] =>
    destruct (parent_init_copy host h s1) as (r & -> & _)
  end.
  destruct r as [p|e]; [|discriminate].
  rewrite M_bind_eq, settings_get_copy.
  repeat rewrite M_bind_eq, settings_or_environ_copy.
  intros [= <- <-]. split; reflexivity.
Qed.

(** X6: the settings object the exporter keeps is a new one, and it
    differs from the one passed in at [FEED_URI] and [FEED_FORMAT] only:
    every other name has the value and the priority it had. *)
Theorem constructor_copy_differs_in_feed_settings host ref (h h' : store) s self :
  h !! ref = Some s ->
  __init__ host ref h = (h', Ok self) ->
  settings self = length h
  /\ settings self <> ref
  /\ exists copy,
      h' !! settings self = Some copy
      /\ forall name,
          name <> "FEED_URI" -> name <> "FEED_FORMAT" ->
          copy !! name = s !! name.
Proof.
  intros Hs Hinit. destruct (init_copy _ _ _ _ _ _ Hs Hinit) as (Hloc & ->).
  split; [exact Hloc|]. split.
  { rewrite Hloc. apply lookup_lt_Some in Hs. lia. }
  eexists. split.
  - rewrite Hloc. apply lookup_copy.
  - intros name Hu Hf.
    rewrite !settings_set_lookup_ne by congruence. reflexivity.
Qed.

(** X6 on the test setting. *)
Lemma constructor_copy_differs_in_feed_settings_witness :
  settings (test_constructed (PInt 2)) = 1%nat
  /\ settings (test_constructed (PInt 2)) <> O
  /\ exists copy,
      test_store (PInt 2) !! settings (test_constructed (PInt 2)) = Some copy
      /\ forall name,
          name <> "FEED_URI" -> name <> "FEED_FORMAT" ->
          copy !! name = test_settings (PInt 2) !! name.
Proof.
  apply (constructor_copy_differs_in_feed_settings test_host O
           [test_settings (PInt 2)] (test_store (PInt 2)) (test_settings (PInt 2))
           (test_constructed (PInt 2))).
  - reflexivity.
  - apply pair_of_snd. vm_compute. reflexivity.
Defined.

(** X7: the constructor returns when the three chunked settings are set,
    template and format being non-empty strings the installation
    supports, and [FEED_URI] and [FEED_FORMAT] are not set at a priority
    above 100. The exporter then writes to the chunked template in the
    chunked format, lower-cased: the two settings override [FEED_URI] and
    [FEED_FORMAT]. It starts at chunk number 1 with no slot open and
    keeps the items-per-chunk value as it is. *)
Theorem constructor_returns host ref (h : store) s u f n :
  h !! ref = Some s ->
  Settings.get s "CHUNKED_FEED_URI" PNone = PStr u -> u <> "" ->
  Settings.get s "CHUNKED_FEED_FORMAT" PNone = PStr f -> f <> "" ->
  Settings.get s "CHUNKED_FEED_ITEMS_PER_CHUNK" PNone = n -> py_truthy n = true ->
  (forall a, s !! "FEED_URI" = Some a -> Settings.priority a <= 100) ->
  (forall a, s !! "FEED_FORMAT" = Some a -> Settings.priority a <= 100) ->
  storage_supported host u = true ->
  exporter_supported host (lower f) = true ->
  exists h',
    __init__ host ref h
    = (h',
       Ok {| settings := length h;
             urifmt := PStr u;
             format := lower f;
             _items_per_chunk := n;
             _chunk_number := 1;
             _timestamp_format :=
               Settings.get s "CHUNKED_FEED_TIMESTAMP_FORMAT"
                 (PStr DEFAULT_TIMESTAMP_FORMAT);
             _scrapy_job :=
               Settings.get s "SCRAPY_JOB"
                 (PStr (default "nojob" (environ host !! "SCRAPY_JOB")));
             _scrapy_project :=
               Settings.get s "SCRAPY_PROJECT"
                 (PStr (default "noproject" (environ host !! "SCRAPY_PROJECT")));
             _scrapy_project_id :=
               Settings.get s "SCRAPY_PROJECT_ID"
                 (PStr (default "noprojectid" (environ host !! "SCRAPY_PROJECT_ID")));
             slot := None;
             stored := [] |}).
Proof.
  intros Hs Hu Hu0 Hf Hf0 Hn Hn0 Hpu Hpf Hst Hex.
  assert (Htu : py_truthy (PStr u) = true).
  { simpl. destruct (String.eqb_spec u ""); [contradiction | reflexivity]. }
  assert (Htf : py_truthy (PStr f) = true).
  { simpl. destruct (String.eqb_spec f ""); [contradiction | reflexivity]. }
  unfold __init__. rewrite M_bind_eq, (deepcopy_spec _ _ _ Hs).
  rewrite M_bind_eq, settings_or_not_configured_copy, Hu, Htu.
  rewrite M_bind_eq, settings_or_not_configured_copy, Hf, Htf.
  rewrite M_bind_eq, settings_or_not_configured_copy, Hn, Hn0.
  rewrite M_bind_eq, settings_set_copy.
  rewrite M_bind_eq, settings_set_copy.
  rewrite M_bind_eq. unfold FeedExporter___init__.
  rewrite M_bind_eq, settings_getitem_copy.
  rewrite settings_getitem_set_ne by discriminate.
  rewrite (settings_getitem_set_eq s "FEED_URI" _ 100 Hpu), Htu.
  cbn [negb]. rewrite M_bind_eq, settings_getitem_copy.
  rewrite settings_getitem_set_eq
    by (intros a; rewrite settings_set_lookup_ne by discriminate; apply Hpf).
  rewrite Hst, Hex. cbn [negb].
  unfold mret at 1, M_ret at 1.
  rewrite M_bind_eq, settings_get_copy.
  repeat rewrite M_bind_eq, settings_or_environ_copy.
  rewrite !settings_get_set_ne by discriminate.
  eexists. reflexivity.
Qed.

(** X7 on the test setting. *)
Lemma constructor_returns_witness :
  exists h',
    __init__ test_host O [test_settings (PInt 2)]
    = (h', Ok (test_constructed (PInt 2))).
Proof.
  destruct (constructor_returns test_host O [test_settings (PInt 2)]
              (test_settings (PInt 2)) EXPORT_FILE_PATTERN "json" (PInt 2))
    as (h' & Hinit).
  - reflexivity.
  - vm_compute. reflexivity.
  - discriminate.
  - vm_compute. reflexivity.
  - discriminate.
  - vm_compute. reflexivity.
  - reflexivity.
  - intros a Ha. vm_compute in Ha. discriminate.
  - intros a Ha. vm_compute in Ha. discriminate.
  - reflexivity.
  - reflexivity.
  - exists h'. exact Hinit.
Defined.

(** ** X8: the parameters [get_uri_parameters] sets *)




(** ** X9, X10: the addresses of the chunks *)

Lemma open_spider_resolves now spider self self' :
  open_spider now spider self = Ok self' ->
  exists u,
    resolves (urifmt self) (FeedExporter__get_uri_params self now spider) u
    /\ self' = with_slot self
                 (Some {| uri := u; itemcount := 0; exported := [];
                          uripar := FeedExporter__get_uri_params self now spider |}).
Proof.
  unfold open_spider, resolves. intros H.
  apply bind_Ok in H as (u & Hu & H). injection H as <-.
  exists u. split; [|reflexivity].
  destruct (urifmt self) as [| |template]; try discriminate. exact Hu.
Qed.

(** Every slot of a run, stored or open, has the address its parameters
    resolve to. *)
Lemma started_addressed clock spider self0 items :
  (forall now, is_ok (open_spider now spider self0) = true) ->
  _chunk_number self0 = 1 ->
  stored self0 = [] ->
  exists self s,
    started clock spider self0 items = Ok self
    /\ running self0 items self s
    /\ addressed self0 self s.
Proof.
  intros Hopen Hn Hst.
  apply (started_invariant (fun _ => addressed self0) clock spider self0 Hopen Hn Hst).
  - intros self s Hopen1 Hs. apply open_spider_resolves in Hopen1 as (u & Hu & ->).
    simpl in Hs. injection Hs as <-.
    unfold addressed. simpl. rewrite Hst. simpl.
    apply Forall_singleton. exact Hu.
  - intros done self s item _ Haddr _. unfold addressed in *. simpl.
    rewrite Forall_app, Forall_singleton in Haddr |- *. exact Haddr.
  - intros now done self s u item Hrun Haddr _ Hu. unfold addressed in *. simpl.
    rewrite Forall_app, Forall_singleton. split; [exact Haddr|].
    simpl. rewrite (cfg_urifmt _ _ (run_config _ _ _ _ Hrun)). exact Hu.
Qed.

Lemma decimal_value_zeros k s :
  decimal_value (replicate_char k "0" +:+ s) = decimal_value s.
Proof.
  induction k as [|k IH]; [reflexivity|].
  unfold decimal_value in *. cbn [replicate_char]. rewrite append_cons.
  cbn [NilEmpty.uint_of_string].
  destruct (NilEmpty.uint_of_string (replicate_char k "0" +:+ s)) as [d|],
           (NilEmpty.uint_of_string s) as [d'|]; simpl in *; congruence.
Qed.

Lemma decimal_value_digits n :
  decimal_value (NilZero.string_of_uint (N.to_uint n)) = Some n.
Proof.
  unfold decimal_value.
  destruct (N.to_uint n) as [| | | | | | | | | |] eqn:Hd;
    try (rewrite <- Hd; unfold NilZero.string_of_uint; rewrite Hd, <- Hd;
         rewrite NilEmpty.usu; simpl; f_equal; apply DecimalN.Unsigned.of_to).
  simpl. f_equal. rewrite <- (DecimalN.Unsigned.of_to n), Hd. reflexivity.
Qed.

(** A zero-padded number reads back as the number. *)
Lemma decimal_value_render width z :
  0 <= z -> decimal_value (render_int true width z) = Some (Z.to_N z).
Proof.
  intros Hz. unfold render_int.
  replace (z <? 0) with false by (symmetry; apply Z.ltb_ge; exact Hz).
  rewrite append_nil_l. unfold rjust.
  rewrite decimal_value_zeros, decimal_value_digits.
  f_equal. lia.
Qed.

Lemma address_inj pre post width (i j : nat) :
  pre +:+ render_int true width (Z.of_nat i) +:+ post
  = pre +:+ render_int true width (Z.of_nat j) +:+ post ->
  i = j.
Proof.
  intros H. apply String.app_inj, append_inj_r in H.
  apply (f_equal decimal_value) in H.
  rewrite !decimal_value_render in H by lia.
  injection H as H. lia.
Qed.

Lemma addresses_of_numbers template (f : nat -> string) (l : list SpiderSlot) :
  (forall p i, p !! "chunk_number" = Some (PInt (Z.of_nat i)) ->
               Template.format template p = Ok (f i)) ->
  Forall (fun s' => resolves (PStr template) (uripar s') (uri s')) l ->
  forall js,
    (fun s' => uripar s' !! "chunk_number") <$> l
    = (fun i => Some (PInt (Z.of_nat i))) <$> js ->
    uri <$> l = f <$> js.
Proof.
  intros Hf. induction 1 as [|s' l Hs' _ IH]; intros [|j js] Hnum;
    try discriminate; [reflexivity|].
  rewrite !fmap_cons in Hnum. injection Hnum as Hj Hrest.
  rewrite !fmap_cons. f_equal; [|apply IH, Hrest].
  simpl in Hs'. rewrite (Hf _ _ Hj) in Hs'. congruence.
Qed.

(** X9: with an address template that is a text, the placeholder
    [%(chunk_number)02d] and a text, the texts without [%], every run of
    the constructed exporter returns, whatever the items-per-chunk value,
    the spider and the clock. Chunk [k] is written to the address made of
    the first text, [k] in two digits at least, and the second text, and
    no two chunks of the run share an address. *)
Theorem chunk_addresses_distinct host ref (h h' : store) self pre post
  clock spider items :
  __init__ host ref h = (h', Ok self) ->
  urifmt self = PStr (pre +:+ "%(chunk_number)02d" +:+ post) ->
  percent_free pre = true ->
  percent_free post = true ->
  exists final,
    run clock spider self items = Ok final
    /\ uri <$> stored final
       = (fun k => pre +:+ render_int true 2 (Z.of_nat k) +:+ post)
           <$> seq 1 (length (chunks final))
    /\ NoDup (uri <$> stored final).
Proof.
  intros Hinit Hfmt Hpre Hpost.
  destruct (init_fresh _ _ _ _ _ Hinit) as (Hn & Hst & _).
  assert (Hformat : forall (p : gmap string pyval) i,
             p !! "chunk_number" = Some (PInt (Z.of_nat i)) ->
             Template.format (pre +:+ "%(chunk_number)02d" +:+ post) p
             = Ok (pre +:+ render_int true 2 (Z.of_nat i) +:+ post)).
  { intros p i Hp.
    apply (TemplateText.format_02d p pre "chunk_number" post _ Hpre eq_refl Hpost Hp). }
  assert (Hopen : forall now, is_ok (open_spider now spider self) = true).
  { intros now. unfold open_spider. rewrite Hfmt.
    rewrite (Hformat _ 1%nat); [reflexivity|].
    unfold FeedExporter__get_uri_params, get_uri_parameters.
    rewrite lookup_insert_eq, Hn. reflexivity. }
  destruct (started_addressed clock spider self items Hopen Hn Hst)
    as (mid & s & Hstarted & Hrun & Haddr).
  exists (finished mid s).
  split; [apply (run_of_started _ _ _ _ _ _ Hstarted (run_slot _ _ _ _ Hrun))|].
  assert (Huris : uri <$> stored (finished mid s)
                  = (fun k => pre +:+ render_int true 2 (Z.of_nat k) +:+ post)
                      <$> seq 1 (length (chunks (finished mid s)))).
  { rewrite chunks_finished, length_app, length_fmap. simpl. rewrite Nat.add_1_r.
    unfold addressed in Haddr. rewrite Hfmt in Haddr.
    apply (addresses_of_numbers _ _ _ Hformat Haddr).
    apply (run_numbers _ _ _ _ Hrun). }
  split; [exact Huris|].
  rewrite Huris. apply NoDup_fmap_2; [|apply NoDup_seq].
  intros i j Hij. apply (address_inj pre post 2 i j Hij).
Qed.

(** X9 on the run of [test_items_5_chunksize_2]. *)
Lemma chunk_addresses_distinct_witness :
  exists final,
    run test_clock test_spider (test_constructed (PInt 2)) (generate 5) = Ok final
    /\ uri <$> stored final
       = (fun k => ".exports/export_test_" +:+ render_int true 2 (Z.of_nat k) +:+ ".json")
           <$> seq 1 (length (chunks final))
    /\ NoDup (uri <$> stored final).
Proof.
  apply (chunk_addresses_distinct test_host O [test_settings (PInt 2)]
           (test_store (PInt 2)) (test_constructed (PInt 2))
           ".exports/export_test_" ".json").
  - apply pair_of_snd. vm_compute. reflexivity.
  - reflexivity.
  - reflexivity.
  - reflexivity.
Defined.

(** The file name the tests compute for a chunk. *)
Lemma get_chunk_filename_eq (chunk : Z) :
  get_chunk_filename chunk
  = Ok (".exports/export_test_" +:+ render_int true 2 chunk +:+ ".json").
Proof.
  apply (TemplateText.format_02d _ ".exports/export_test_" "chunk_number" ".json");
    reflexivity.
Qed.

(** X10: an exporter that writes to [EXPORT_FILE_PATTERN], as the one the
    test settings construct, writes chunk [k] of every run to the file
    [get_chunk_filename(k)], which is where the tests read the chunk
    from; this holds for every items-per-chunk value the constructor
    accepts, every spider and every number of records. *)
Theorem chunks_are_where_the_tests_read host ref (h h' : store) self
  clock spider items :
  __init__ host ref h = (h', Ok self) ->
  urifmt self = PStr EXPORT_FILE_PATTERN ->
  exists final,
    run clock spider self items = Ok final
    /\ (fun s => Ok (uri s)) <$> stored final
       = (fun k => get_chunk_filename (Z.of_nat k)) <$> seq 1 (length (chunks final)).
Proof.
  intros Hinit Hfmt.
  destruct (init_fresh _ _ _ _ _ Hinit) as (Hn & Hst & _).
  assert (Hformat : forall (p : gmap string pyval) i,
             p !! "chunk_number" = Some (PInt (Z.of_nat i)) ->
             Template.format EXPORT_FILE_PATTERN p = get_chunk_filename (Z.of_nat i)).
  { intros p i Hp. rewrite get_chunk_filename_eq.
    apply (TemplateText.format_02d p ".exports/export_test_" "chunk_number" ".json");
      try reflexivity. exact Hp. }
  assert (Hopen : forall now, is_ok (open_spider now spider self) = true).
  { intros now. unfold open_spider. rewrite Hfmt.
    rewrite (Hformat _ 1%nat), get_chunk_filename_eq; [reflexivity|].
    unfold FeedExporter__get_uri_params, get_uri_parameters.
    rewrite lookup_insert_eq, Hn. reflexivity. }
  destruct (started_addressed clock spider self items Hopen Hn Hst)
    as (mid & s & Hstarted & Hrun & Haddr).
  exists (finished mid s).
  split; [apply (run_of_started _ _ _ _ _ _ Hstarted (run_slot _ _ _ _ Hrun))|].
  rewrite chunks_finished, length_app, length_fmap. simpl. rewrite Nat.add_1_r.
  unfold addressed in Haddr. rewrite Hfmt in Haddr.
  pose proof (run_numbers _ _ _ _ Hrun) as Hnum. unfold numbers_from_1 in Hnum.
  revert Haddr Hnum. generalize (seq 1 (S (length (stored mid)))).
  generalize (stored mid ++ [s])%list.
  induction l as [|s' l IH]; intros [|j js] Haddr Hnum; try discriminate;
    [reflexivity|].
  rewrite !fmap_cons in Hnum. injection Hnum as Hj Hrest.
  apply Forall_cons in Haddr as [Hs' Haddr].
  rewrite !fmap_cons. f_equal; [|apply IH; assumption].
  simpl in Hs'. rewrite <- (Hformat _ _ Hj). symmetry. exact Hs'.
Qed.

(** X10 on the run of [test_items_5_chunksize_2]. *)
Lemma chunks_are_where_the_tests_read_witness :
  exists final,
    run test_clock test_spider (test_constructed (PInt 2)) (generate 5) = Ok final
    /\ (fun s => Ok (uri s)) <$> stored final
       = (fun k => get_chunk_filename (Z.of_nat k)) <$> seq 1 (length (chunks final)).
Proof.
  apply (chunks_are_where_the_tests_read test_host O [test_settings (PInt 2)]
           (test_store (PInt 2)) (test_constructed (PInt 2))).
  - apply pair_of_snd. vm_compute. reflexivity.
  - reflexivity.
Defined.

(** ** X11: a placeholder nobody provides *)



(** ** X12: the chunks are the blocks of the input *)

Lemma blocks_go_unique (t : nat) (bs : list (list Item)) (c : list Item) :
  (0 < t)%nat ->
  Forall (fun b => length b = t) bs ->
  (1 <= length c <= t)%nat ->
  forall fuel,
    (length (concat bs ++ c) <= fuel)%nat ->
    blocks_go fuel t (concat bs ++ c)%list = (bs ++ [c])%list.
Proof.
  intros Ht Hbs Hc. induction Hbs as [|b bs Hb _ IH]; intros fuel Hfuel.
  - simpl in *. destruct fuel as [|fuel]; [lia|].
    destruct c as [|x c]; [simpl in Hc; lia|].
    cbn [blocks_go]. rewrite take_ge, drop_ge by lia.
    destruct fuel; reflexivity.
  - cbn [concat] in *. rewrite <- app_assoc in *.
    destruct fuel as [|fuel]; [rewrite length_app in Hfuel; lia|].
    destruct b as [|x b]; [simpl in Hb; lia|].
    change (blocks_go (S fuel) t ((x :: b) ++ concat bs ++ c))
      with (take t ((x :: b) ++ concat bs ++ c)
            :: blocks_go fuel t (drop t ((x :: b) ++ concat bs ++ c))).
    rewrite take_app_length', drop_app_length' by (symmetry; exact Hb).
    rewrite IH; [reflexivity|].
    rewrite length_app in Hfuel. lia.
Qed.

(** X12: with [t > 0] items per chunk the chunks of a finished run are
    the input cut into consecutive blocks of [t] records, the last block
    holding what is left; a run without records leaves one empty chunk. *)
Theorem chunks_are_blocks host ref (h h' : store) self t clock spider items :
  __init__ host ref h = (h', Ok self) ->
  _items_per_chunk self = PInt t ->
  0 < t ->
  is_ok (open_spider (clock O) spider self) = true ->
  exists final,
    run clock spider self items = Ok final
    /\ chunks final = chunks_of_records t items.
Proof.
  intros Hinit Hipc Ht Hopen.
  destruct (init_fresh _ _ _ _ _ Hinit) as (Hn & Hst & _).
  destruct (run_filling spider self (open_ok_always clock spider self Hopen)
              t Ht Hipc clock items Hn Hst)
    as (self1 & s & Hrun & Hrunning & [Hfull Htot Hup Hlo]).
  exists (finished self1 s). split; [exact Hrun|].
  pose proof (run_count _ _ _ _ Hrunning) as Hcount.
  pose proof (run_records _ _ _ _ Hrunning) as Hrec.
  rewrite chunks_finished. unfold chunks_of_records.
  destruct items as [|item items].
  - simpl in Htot.
    assert (Hlen : length (stored self1) = O) by nia.
    assert (Hcur : length (exported s) = O) by nia.
    apply length_zero_iff_nil in Hlen, Hcur. rewrite Hlen, Hcur. reflexivity.
  - specialize (Hlo ltac:(discriminate)). cbv beta iota. unfold blocks.
    rewrite <- Hrec. symmetry.
    apply blocks_go_unique.
    + lia.
    + apply Forall_fmap. eapply Forall_impl; [exact Hfull|].
      intros s' Hs'. unfold compose. rewrite <- Hs'. lia.
    + lia.
    + lia.
Qed.

(** X12 on the run of [test_items_5_chunksize_2]. *)
Lemma chunks_are_blocks_witness :
  exists final,
    run test_clock test_spider (test_constructed (PInt 2)) (generate 5) = Ok final
    /\ chunks final = chunks_of_records 2 (generate 5).
Proof.
  apply (chunks_are_blocks test_host O [test_settings (PInt 2)]
           (test_store (PInt 2)) (test_constructed (PInt 2)) 2
           test_clock test_spider (generate 5)).
  - apply pair_of_snd. vm_compute. reflexivity.
  - reflexivity.
  - reflexivity.
  - vm_compute. reflexivity.
Defined.

(** ** X13: the timestamp of a chunk *)

Lemma add_items_from (P : list Item -> ChunkedFeedExporter -> Prop) clock spider :
  (forall done self item,
      P done self ->
      exists self',
        item_scraped (clock (S (length done))) spider self item = Ok self'
        /\ P (done ++ [item])%list self') ->
  forall items done self,
    P done self ->
    exists self',
      add_items clock (S (length done)) spider self items = Ok self'
      /\ P (done ++ items)%list self'.
Proof.
  intros Hstep. induction items as [|item rest IH]; intros done self HP.
  - exists self. rewrite app_nil_r. split; [reflexivity | exact HP].
  - destruct (Hstep done self item HP) as (self1 & Hs & HP1).
    destruct (IH _ self1 HP1) as (self2 & Hr & HP2).
    exists self2. cbn [add_items]. rewrite Hs. cbn [mbind result_bind].
    rewrite length_app, Nat.add_1_r in Hr.
    split; [exact Hr|]. rewrite <- app_assoc in HP2. exact HP2.
Qed.

(** X13: with [t > 0] items per chunk, the timestamp parameter of a chunk
    is the time at which the chunk was opened, in the default format: the
    start of the run for the first chunk, and for chunk [j+1] the arrival
    of record [j*t + 1], the one that triggered the rotation. Later
    records and the closing of the chunk do not change it. *)
Theorem chunk_timestamp_is_opening_time host ref (h h' : store) self t
  clock spider items :
  __init__ host ref h = (h', Ok self) ->
  _items_per_chunk self = PInt t ->
  0 < t ->
  is_ok (open_spider (clock O) spider self) = true ->
  exists final,
    run clock spider self items = Ok final
    /\ chunk_timestamps final
       = (fun j => Some (PStr (strftime (clock (opening_call (Z.to_nat t) j))
                                 DEFAULT_TIMESTAMP_FORMAT)))
           <$> seq 0 (length (chunks final)).
Proof.
  intros Hinit Hipc Ht Hopen.
  destruct (init_fresh _ _ _ _ _ Hinit) as (Hn & Hst & _).
  pose proof (open_ok_always clock spider self Hopen) as Hopens.
  set (stamp := fun j => Some (PStr (strftime (clock (opening_call (Z.to_nat t) j))
                                       DEFAULT_TIMESTAMP_FORMAT))).
  set (P := fun done mid =>
              exists s, running self done mid s /\ filling t done mid s
                        /\ (fun s' => uripar s' !! "timestamp")
                             <$> (stored mid ++ [s])%list
                           = stamp <$> seq 0 (S (length (stored mid)))).
  destruct (is_ok_true _ Hopen) as (self1 & Hopen1).
  assert (HP1 : P [] self1).
  { destruct (running_opened spider self _ _ Hn Hst Hopen1) as (s1 & Hrun1).
    exists s1. split; [exact Hrun1|].
    apply open_spider_inv in Hopen1 as (u & ->).
    pose proof (run_slot _ _ _ _ Hrun1) as Hs. simpl in Hs. injection Hs as <-.
    split.
    - split; simpl; rewrite ?Hst; simpl; try lia; [constructor | congruence].
    - simpl. rewrite Hst. simpl. unfold stamp. simpl.
      unfold FeedExporter__get_uri_params.
      rewrite timestamp_rendered_with_default. reflexivity. }
  destruct (add_items_from P clock spider) with (items := items) (done := @nil Item)
                                                (self := self1)
    as (mid & Hadd & s & Hrun & Hfill & Hstamps); [|exact HP1|].
  - intros done mid1 item (s & Hrun & Hfill & Hstamps).
    assert (Ho : is_ok (open_spider (clock (S (length done))) spider mid1) = true).
    { rewrite <- (Hopens (clock (S (length done)))). symmetry.
      apply open_spider_ok_config. apply (run_config _ _ _ _ Hrun). }
    pose proof (run_count _ _ _ _ Hrun) as Hcount.
    destruct Hfill as [Hfull Htot Hup Hlo].
    assert (Hcond : slot_is_full mid1 s = (t <=? itemcount s)).
    { unfold slot_is_full.
      rewrite <- (cfg_items_per_chunk _ _ (run_config _ _ _ _ Hrun)), Hipc.
      simpl. replace (t =? 0) with false by (symmetry; apply Z.eqb_neq; lia).
      reflexivity. }
    destruct (item_scraped_cases _ spider mid1 s item (run_slot _ _ _ _ Hrun) Ho)
      as [(Hnot & Hscr)|(Hyes & u & Hu & Hscr)].
    + rewrite Hcond in Hnot. apply Z.leb_gt in Hnot.
      eexists. split; [exact Hscr|]. exists (appended_slot s item).
      split; [apply running_appended; exact Hrun|]. split.
      * split; simpl; [exact Hfull | rewrite length_app; simpl; lia | lia | lia].
      * simpl. rewrite fmap_app in Hstamps |- *. exact Hstamps.
    + rewrite Hcond in Hyes. apply Z.leb_le in Hyes.
      eexists. split; [exact Hscr|].
      exists (rotated_slot (clock (S (length done))) spider mid1 u item).
      split; [apply running_rotated; exact Hrun|]. split.
      * split; simpl.
        -- rewrite Forall_app, Forall_singleton. split; [exact Hfull | lia].
        -- rewrite !length_app. simpl. lia.
        -- lia.
        -- lia.
      * cbn [stored rotated with_slot with_stored with_chunk_number].
        rewrite length_app. cbn [length]. rewrite Nat.add_1_r.
        rewrite (seq_S (S (length (stored mid1)))), (fmap_app stamp).
        rewrite (fmap_app _ (stored mid1 ++ [s])%list), Hstamps.
        f_equal. cbn [fmap list_fmap rotated_slot uripar].
        unfold FeedExporter__get_uri_params.
        rewrite timestamp_rendered_with_default. unfold stamp.
        do 4 f_equal. cbn [Nat.add opening_call]. f_equal.
        apply Nat2Z.inj.
        rewrite Nat2Z.inj_add, Nat2Z.inj_mul, Z2Nat.id by lia. nia.
  - exists (finished mid s). split.
    + unfold run. rewrite Hopen1. cbn [mbind result_bind].
      change 1%nat with (S (length (@nil Item))). rewrite Hadd.
      cbn [mbind result_bind]. unfold close_spider.
      rewrite (run_slot _ _ _ _ Hrun). reflexivity.
    + unfold chunk_timestamps. rewrite chunks_finished, length_app, length_fmap.
      simpl. rewrite Nat.add_1_r. exact Hstamps.
Qed.

(** X13 on the run of [test_items_5_chunksize_2] with a clock that
    advances one hour with every call: the chunks are opened at the calls
    0, 3 and 5. *)
Lemma chunk_timestamp_is_opening_time_witness :
  exists final,
    run hourly_clock test_spider (test_constructed (PInt 2)) (generate 5) = Ok final
    /\ chunk_timestamps final
       = (fun j => Some (PStr (strftime (hourly_clock (opening_call 2 j))
                                 DEFAULT_TIMESTAMP_FORMAT)))
           <$> seq 0 (length (chunks final)).
Proof.
  apply (chunk_timestamp_is_opening_time test_host O [test_settings (PInt 2)]
           (test_store (PInt 2)) (test_constructed (PInt 2)) 2).
  - apply pair_of_snd. vm_compute. reflexivity.
  - reflexivity.
  - reflexivity.
  - vm_compute. reflexivity.
Defined.

Example blocks_of_two :
  chunks_of_records 2 (generate 5)
  = [[FakeItem 1; FakeItem 2]; [FakeItem 3; FakeItem 4]; [FakeItem 5]].
Proof. vm_compute. reflexivity. Qed.

Example hourly_timestamps :
  (run hourly_clock test_spider (test_constructed (PInt 2)) (generate 5)
     ≫= fun final => Ok (chunk_timestamps final))
  = Ok [Some (PStr "2014-05-06-00"); Some (PStr "2014-05-06-03");
        Some (PStr "2014-05-06-05")].
Proof. vm_compute. reflexivity. Qed.
